(** * kvmd: the session and authorization manager ([kvmd/apps/kvmd/auth.py])

    A shallow embedding of [AuthManager] and of the frozen dataclass
    [_Session], followed by the properties of the session life cycle
    (login, check, logout), of the credential-verification policy (TOTP
    gate, choice of the auth service) and of the shutdown hook.

    Conventions of the embedding.
    - A Python [str] is a [string]; a character is its code point, kept in
      the range 0..255.
    - A Python [int] is a [Z].
    - [self.__sessions], a [dict], is a [gmap string _Session.t]: the
      methods only look keys up, insert, delete and walk a snapshot of the
      items in a way that does not depend on the order.
    - A method is a computation in the monad [M]: it reads and updates a
      [World] (the mutable part of the process) and either returns or raises.
      An exception leaves the updates made before it in place, as in Python.
    - What the module imports from elsewhere (the auth plugins, [pyotp],
      [secrets], the file system) is a variable of the section [Manager]. *)

From Stdlib Require Import ZArith Ascii String List Lia.
From stdpp Require Import gmap strings list fin_maps.

Local Open Scope string_scope.
Local Open Scope Z_scope.

(** ** Python strings *)

Module PyStr.

(** Truth value of a string: [bool(s)]. *)
Definition truthy (s : string) : bool :=
  match s with
  | EmptyString => false
  | String _ _ => true
  end.

Definition len (s : string) : Z := Z.of_nat (String.length s).

(** [str.isspace] on one character, for the code points below 256:
    TAB..CR, FS..US, SPACE, NEL and NBSP. *)
Definition isspace (c : ascii) : bool :=
  let n := Z.of_N (N_of_ascii c) in
  ((9 <=? n) && (n <=? 13)) || ((28 <=? n) && (n <=? 32))
  || (n =? 133) || (n =? 160).

Fixpoint lstrip (s : string) : string :=
  match s with
  | EmptyString => EmptyString
  | String c s' => if isspace c then lstrip s' else s
  end.

Fixpoint rstrip (s : string) : string :=
  match s with
  | EmptyString => EmptyString
  | String c s' =>
      let r := rstrip s' in
      if isspace c && negb (truthy r) then EmptyString else String c r
  end.

(** [s.strip()] *)
Definition strip (s : string) : string := rstrip (lstrip s).

(** A slice bound as Python normalises it: a negative index counts from
    the end, and the result is clamped to [0, len]. *)
Definition bound (n i : Z) : Z :=
  if i <? 0 then Z.max (n + i) 0 else Z.min i n.

(** [s[i:]] *)
Definition slice_from (s : string) (i : Z) : string :=
  let a := Z.to_nat (bound (len s) i) in
  substring a (String.length s - a) s.

(** [s[:j]] *)
Definition slice_to (s : string) (j : Z) : string :=
  substring 0 (Z.to_nat (bound (len s) j)) s.

Definition all_space (s : string) : bool :=
  forallb isspace (list_ascii_of_string s).

End PyStr.

(** ** Exceptions, events and the world *)

(** The exceptions that can cross a method of [AuthManager]: a failed
    [assert], a [del] of a missing key, and whatever a collaborator raises
    ([OSError] from [open], an error of [pyotp], an error of a plugin). *)
Inductive exn : Type :=
| AssertionError (msg : string)
| KeyError (key : string)
| Failure (what : string).

Inductive Res (A : Type) : Type :=
| Ok (a : A)
| Raise (e : exn).
Arguments Ok {A} a.
Arguments Raise {A} e.

(** The two places an auth service is kept in. *)
Inductive slot : Type := Internal | External.

Inductive level : Type := INFO | WARNING | ERROR.

Inductive arg : Type := Str (s : string) | Int (z : Z).

(** What a run leaves behind outside the session table: the log records,
    and the calls made to the auth services. *)
Inductive Event : Type :=
| Log (lvl : level) (fmt : string) (args : list arg)
| Authorize (sl : slot) (user passwd : string)
| Cleanup (sl : slot).

(** [_Session], a frozen dataclass. *)
Module _Session.
Record t : Type := mk { user : string; expire_ts : Z }.

(** The dataclass invariant, as [__post_init__] asserts it. *)
Definition valid (s : t) : bool :=
  PyStr.truthy (PyStr.strip (user s)) && PyStr.truthy (user s)
  && (0 <=? expire_ts s).
End _Session.

(** The interface of an auth plugin ([BaseAuthService]); an instance is
    given by what its methods answer. *)
Module BaseAuthService.
Record t : Type := mk {
  get_plugin_name : string;
  authorize : string -> string -> Res bool;
  cleanup : Res unit
}.
End BaseAuthService.

(** The two attributes of an [HttpExposed] the manager reads. *)
Module HttpExposed.
Record t : Type := mk { path : string; auth_required : bool }.
End HttpExposed.

Record World : Type := mkWorld {
  __sessions : gmap string _Session.t;  (* {token: session} *)
  monotonic : Z;                        (* int(time.monotonic()) *)
  drawn : nat;                          (* tokens taken from [secrets] so far *)
  trace : list Event                    (* oldest first *)
}.

Definition set_sessions (m : gmap string _Session.t) (w : World) : World :=
  mkWorld m (monotonic w) (drawn w) (trace w).

Definition set_monotonic (now : Z) (w : World) : World :=
  mkWorld (__sessions w) now (drawn w) (trace w).

Definition add_events (es : list Event) (w : World) : World :=
  mkWorld (__sessions w) (monotonic w) (drawn w) (trace w ++ es).

(** ** The monad of methods *)

Definition M (A : Type) : Type := World -> Res A * World.

Definition ret {A} (a : A) : M A := fun w => (Ok a, w).

Definition bind {A B} (c : M A) (k : A -> M B) : M B :=
  fun w =>
    match c w with
    | (Ok a, w') => k a w'
    | (Raise e, w') => (Raise e, w')
    end.

Definition raise {A} (e : exn) : M A := fun w => (Raise e, w).

Declare Scope method_scope.
Delimit Scope method_scope with method.
Notation "x <- c1 ;; c2" := (bind c1 (fun x => c2))
  (at level 100, c1 at next level, right associativity) : method_scope.
Notation "c1 ;; c2" := (bind c1 (fun _ => c2))
  (at level 100, right associativity) : method_scope.
Local Open Scope method_scope.

(** [assert b] *)
Definition assert_ (b : bool) : M unit :=
  if b then ret tt else raise (AssertionError "").

(** [assert o], for an attribute that is an object or [None]. *)
Definition assert_some {A} (o : option A) : M A :=
  match o with
  | Some a => ret a
  | None => raise (AssertionError "")
  end.

(** The outcome of a call into a collaborator. *)
Definition lift {A} (r : Res A) : M A := fun w => (r, w).

Definition emit (e : Event) : M unit := fun w => (Ok tt, add_events [e] w).

(** [get_logger().info(...)] and its siblings *)
Definition log (lvl : level) (fmt : string) (args : list arg) : M unit :=
  emit (Log lvl fmt args).

Definition get_sessions : M (gmap string _Session.t) :=
  fun w => (Ok (__sessions w), w).

(** [self.__sessions[token] = session] *)
Definition setitem (token : string) (session : _Session.t) : M unit :=
  fun w => (Ok tt, set_sessions (<[token := session]> (__sessions w)) w).

(** [del self.__sessions[token]] *)
Definition delitem (token : string) : M unit :=
  fun w =>
    match __sessions w !! token with
    | Some _ => (Ok tt, set_sessions (delete token (__sessions w)) w)
    | None => (Raise (KeyError token), w)
    end.

(** [_Session(user=..., expire_ts=...)]: the fields, then [__post_init__]. *)
Definition new_Session (user : string) (expire_ts : Z) : M _Session.t :=
  assert_ (PyStr.truthy (PyStr.strip user)) ;;
  assert_ (PyStr.truthy user) ;;
  assert_ (0 <=? expire_ts) ;;
  ret (_Session.mk user expire_ts).

(** ** [AuthManager] *)

(** The attributes [__init__] sets once; [__sessions], the only one a
    method reassigns or mutates, lives in the [World]. *)
Record AuthManager : Type := mkAuthManager {
  __enabled : bool;
  __unauth_paths : gset string;
  __internal_service : option BaseAuthService.t;
  __force_internal_users : list string;
  __external_service : option BaseAuthService.t;
  __totp_secret_path : string
}.

(** The service kept in a slot. *)
Definition service_in (self : AuthManager) (sl : slot)
    : option BaseAuthService.t :=
  match sl with
  | Internal => __internal_service self
  | External => __external_service self
  end.

(** ** Observations on a run *)

(** The events a run from [w] to [w'] appended to the trace. *)
Definition new_events (w w' : World) : list Event :=
  drop (length (trace w)) (trace w').

(** The calls [service.authorize(user, passwd)] among some events. *)
Definition service_calls (es : list Event) : list (slot * string * string) :=
  flat_map (fun e => match e with
                     | Authorize sl user passwd => [(sl, user, passwd)]
                     | _ => []
                     end) es.

(** The calls [service.cleanup()] among some events. *)
Definition cleanup_calls (es : list Event) : list slot :=
  flat_map (fun e => match e with Cleanup sl => [sl] | _ => [] end) es.

(** Every session of the table satisfies the invariant of [_Session]. *)
Definition valid_table (m : gmap string _Session.t) : Prop :=
  map_Forall (fun _ s => _Session.valid s = true) m.

(** The sessions of [user] in a snapshot of the table. *)
Definition sessions_of (user : string) (items : list (string * _Session.t))
    : list (string * _Session.t) :=
  filter (fun kv => _Session.user kv.2 = user) items.

(** ** A small installation, to run the methods on *)

Module Demo.

(** An [htpasswd]-like service that knows two users. *)
Definition htpasswd : BaseAuthService.t :=
  BaseAuthService.mk "htpasswd"
    (fun user passwd =>
       Ok (bool_decide (user = "admin" /\ passwd = "admin")
           || bool_decide (user = "alice" /\ passwd = "pw1")))
    (Ok tt).

(** An external service that knows [alice] under another password. *)
Definition pam : BaseAuthService.t :=
  BaseAuthService.mk "pam"
    (fun user passwd => Ok (bool_decide (user = "alice" /\ passwd = "unix")))
    (Ok tt).

(** A service whose [cleanup] raises. *)
Definition flaky : BaseAuthService.t :=
  BaseAuthService.mk "flaky" (fun _ _ => Raise (Failure "unreachable"))
    (Raise (Failure "cleanup failed")).

Definition get_auth_service_class (name : string) (_ : unit)
    : Res BaseAuthService.t :=
  if bool_decide (name = "htpasswd") then Ok htpasswd
  else if bool_decide (name = "pam") then Ok pam
  else if bool_decide (name = "flaky") then Ok flaky
  else Raise (Failure "unknown plugin").

Definition secret_path : string := "/etc/kvmd/totp.secret".
Definition blank_path : string := "/etc/kvmd/blank.secret".

Definition read_file (path : string) : Res string :=
  if bool_decide (path = secret_path)
  then Ok (String "010" "JBSWY3DPEHPK3PXP" +:+ String "010" "")
  else if bool_decide (path = blank_path)
  then Ok (String " " (String "009" (String "010" "")))
  else Raise (Failure "FileNotFoundError").

Definition totp_verify (secret code : string) : Res bool :=
  Ok (bool_decide (secret = "JBSWY3DPEHPK3PXP" /\ code = "492039")).

(** A healthy token source, and one that always answers the same. *)
Definition token_hex (n : nat) : string :=
  nth n ["c0ffee"; "decade"; "facade"] "f00d".
Definition stuck_hex (_ : nat) : string := "c0ffee".

Definition plain : AuthManager :=
  mkAuthManager true {["/api/info"]} (Some htpasswd) ["admin"] (Some pam) "".
Definition with_totp : AuthManager :=
  mkAuthManager true ∅ (Some htpasswd) ["admin"] None secret_path.
Definition with_blank : AuthManager :=
  mkAuthManager true ∅ (Some htpasswd) ["admin"] None blank_path.
Definition with_flaky : AuthManager :=
  mkAuthManager true ∅ (Some flaky) [] (Some pam) "".
Definition simple : AuthManager :=
  mkAuthManager true ∅ (Some htpasswd) [] None "".
Definition disabled : AuthManager :=
  mkAuthManager false ∅ None [] None "".

Definition boot : World := mkWorld ∅ 100 0 [].

Definition table : gmap string _Session.t :=
  <["c0ffee" := _Session.mk "alice" 0]>
    (<["decade" := _Session.mk "alice" 160]>
       (<["beef" := _Session.mk "admin" 130]> ∅)).

(** The process at second 120, three sessions open. *)
Definition busy : World := mkWorld table 120 0 [].

End Demo.

Section Manager.

(** [secrets.token_hex(32)]: the value of the [n]-th call of this run. *)
Variable token_hex : nat -> string.

(** [open(path).read()], as the file system answers during the call. *)
Variable read_file : string -> Res string.

(** [pyotp.TOTP(secret).verify(code, valid_window=1)] at the time of the
    call: the code of the current time step or of one of its two
    neighbours is accepted. *)
Variable totp_verify : string -> string -> Res bool.

(** The plugin registry: [get_auth_service_class name] applied to the
    keyword arguments of the plugin. *)
Variable Kwargs : Type.
Variable get_auth_service_class : string -> Kwargs -> Res BaseAuthService.t.

Fixpoint log_unauth_paths (paths : list string) : M unit :=
  match paths with
  | [] => ret tt
  | path :: rest =>
      log WARNING "Authorization is disabled for API %r" [Str path] ;;
      log_unauth_paths rest
  end.

(** [self.__sessions = {}] *)
Definition new_sessions : M unit :=
  fun w => (Ok tt, set_sessions ∅ w).

Definition __init__
    (enabled : bool) (unauth_paths : list string)
    (internal_type : string) (internal_kwargs : Kwargs)
    (force_internal_users : list string)
    (external_type : string) (external_kwargs : Kwargs)
    (totp_secret_path : string) : M AuthManager :=
  (if negb enabled then log WARNING "AUTHORIZATION IS DISABLED" []
   else ret tt) ;;
  let paths : gset string := list_to_set unauth_paths in
  log_unauth_paths (elements paths) ;;
  internal <-
    (if enabled then
       service <- lift (get_auth_service_class internal_type internal_kwargs) ;;
       log INFO "Using internal auth service %r"
         [Str (BaseAuthService.get_plugin_name service)] ;;
       ret (Some service)
     else ret None) ;;
  external <-
    (if enabled && PyStr.truthy external_type then
       service <- lift (get_auth_service_class external_type external_kwargs) ;;
       log INFO "Using external auth service %r"
         [Str (BaseAuthService.get_plugin_name service)] ;;
       ret (Some service)
     else ret None) ;;
  new_sessions ;;
  ret (mkAuthManager enabled paths internal force_internal_users external
         totp_secret_path).

Definition is_auth_enabled (self : AuthManager) : M bool :=
  ret (__enabled self).

Definition is_auth_required (self : AuthManager) (exposed : HttpExposed.t)
    : M bool :=
  enabled <- is_auth_enabled self ;;
  ret (enabled
       && HttpExposed.auth_required exposed
       && bool_decide (HttpExposed.path exposed ∉ __unauth_paths self)).

(** Lines 117-120 of [authorize]: which service verifies [user]. *)
Definition select_service (self : AuthManager) (user : string)
    (internal : BaseAuthService.t) : slot * BaseAuthService.t :=
  if bool_decide (user ∉ __force_internal_users self) then
    match __external_service self with
    | Some external => (External, external)
    | None => (Internal, internal)
    end
  else (Internal, internal).

(** Lines 117-128 of [authorize]: the call to the chosen service. *)
Definition authorize_by_service (self : AuthManager) (user passwd : string)
    (internal : BaseAuthService.t) : M bool :=
  let '(sl, service) := select_service self user internal in
  emit (Authorize sl user passwd) ;;
  ok <- lift (BaseAuthService.authorize service user passwd) ;;
  let pname := BaseAuthService.get_plugin_name service in
  (if ok : bool then
     log INFO "Authorized user %r via auth service %r" [Str user; Str pname]
   else
     log ERROR "Got access denied for user %r from auth service %r"
       [Str user; Str pname]) ;;
  ret ok.

Definition authorize (self : AuthManager) (user passwd : string) : M bool :=
  assert_ (bool_decide (user = PyStr.strip user)) ;;
  assert_ (PyStr.truthy user) ;;
  assert_ (__enabled self) ;;
  internal <- assert_some (__internal_service self) ;;
  if PyStr.truthy (__totp_secret_path self) then
    content <- lift (read_file (__totp_secret_path self)) ;;
    let secret := PyStr.strip content in
    if PyStr.truthy secret then
      let code := PyStr.slice_from passwd (-6) in
      valid <- lift (totp_verify secret code) ;;
      if negb valid then
        log ERROR "Got access denied for user %r by TOTP" [Str user] ;;
        ret false
      else
        authorize_by_service self user (PyStr.slice_to passwd (-6)) internal
    else authorize_by_service self user passwd internal
  else authorize_by_service self user passwd internal.

(** One call of [secrets.token_hex(32)]. *)
Definition draw_token : M string :=
  fun w =>
    (Ok (token_hex (drawn w)),
     mkWorld (__sessions w) (monotonic w) (S (drawn w)) (trace w)).

(** The [for] loop of [__make_new_token] with [attempts] rounds left,
    and the [raise] that follows it. *)
Fixpoint make_new_token_loop (attempts : nat) : M string :=
  match attempts with
  | O => raise (AssertionError "Can't generate new unique token")
  | S attempts' =>
      token <- draw_token ;;
      sessions <- get_sessions ;;
      if bool_decide (sessions !! token = None) then ret token
      else make_new_token_loop attempts'
  end.

Definition __make_new_token : M string := make_new_token_loop 10.

Definition __get_now_ts : M Z := fun w => (Ok (monotonic w), w).

Definition login (self : AuthManager) (user passwd : string) (expire : Z)
    : M (option string) :=
  assert_ (bool_decide (user = PyStr.strip user)) ;;
  assert_ (PyStr.truthy user) ;;
  assert_ (0 <=? expire) ;;
  assert_ (__enabled self) ;;
  ok <- authorize self user passwd ;;
  if ok : bool then
    token <- __make_new_token ;;
    expire_ts <- (if expire <=? 0 then ret 0
                  else (now <- __get_now_ts ;; ret (now + expire))) ;;
    session <- new_Session user expire_ts ;;
    setitem token session ;;
    log INFO "Logged in user %r (expire_ts=%d)"
      [Str (_Session.user session); Int (_Session.expire_ts session)] ;;
    ret (Some token)
  else ret None.

(** The loop of [logout] over the snapshot [list(self.__sessions.items())]. *)
Fixpoint logout_loop (user : string) (items : list (string * _Session.t))
    (count : Z) : M Z :=
  match items with
  | [] => ret count
  | (key_t, session) :: rest =>
      if bool_decide (_Session.user session = user) then
        delitem key_t ;;
        logout_loop user rest (count + 1)
      else logout_loop user rest count
  end.

Definition logout (self : AuthManager) (token : string) : M unit :=
  assert_ (__enabled self) ;;
  sessions <- get_sessions ;;
  match sessions !! token with
  | Some session =>
      let user := _Session.user session in
      count <- logout_loop user (map_to_list sessions) 0 ;;
      log INFO "Logged out user %r (was=%d)" [Str user; Int count]
  | None => ret tt
  end.

Definition check (self : AuthManager) (token : string) : M (option string) :=
  assert_ (__enabled self) ;;
  sessions <- get_sessions ;;
  match sessions !! token with
  | Some session =>
      if _Session.expire_ts session <=? 0 then
        (* Infinite session *)
        assert_ (PyStr.truthy (_Session.user session)) ;;
        ret (Some (_Session.user session))
      else
        (* Limited session *)
        now <- __get_now_ts ;;
        if now <? _Session.expire_ts session then
          assert_ (PyStr.truthy (_Session.user session)) ;;
          ret (Some (_Session.user session))
        else
          delitem token ;;
          ret None
  | None => ret None
  end.

(** [await service.cleanup()]. The decorator [aiotools.atomic_fg], which
    shields the coroutine from cancellation, has no counterpart in a
    sequential model. *)
Definition call_cleanup (sl : slot) (service : BaseAuthService.t) : M unit :=
  emit (Cleanup sl) ;;
  lift (BaseAuthService.cleanup service).

Definition cleanup (self : AuthManager) : M unit :=
  if __enabled self then
    internal <- assert_some (__internal_service self) ;;
    call_cleanup Internal internal ;;
    match __external_service self with
    | Some external => call_cleanup External external
    | None => ret tt
    end
  else ret tt.

(** ** Vocabulary of the statements *)

(** A run from [w] to [w'] touched nothing but the trace. *)
Definition same_state (w w' : World) : Prop :=
  __sessions w' = __sessions w
  /\ monotonic w' = monotonic w
  /\ drawn w' = drawn w.

(** The secret an [authorize] call works with: the stripped content of the
    file at [__totp_secret_path], or the empty string without a path. *)
Definition configured_secret (self : AuthManager) (secret : string) : Prop :=
  if PyStr.truthy (__totp_secret_path self)
  then exists content,
         read_file (__totp_secret_path self) = Ok content
         /\ secret = PyStr.strip content
  else secret = "".

(** The run [out] of [authorize] from [w] made exactly one call to an auth
    service, to the selected one, with [user] and [passwd]; its outcome is
    the outcome of that call, and the state is untouched. *)
Definition verified_with (self : AuthManager) (user passwd : string)
    (internal : BaseAuthService.t) (w : World) (out : Res bool * World)
    : Prop :=
  let '(sl, service) := select_service self user internal in
  out.1 = BaseAuthService.authorize service user passwd
  /\ service_calls (new_events w out.2) = [(sl, user, passwd)]
  /\ same_state w out.2.

(** The manager without a TOTP secret path. *)
Definition without_totp (self : AuthManager) : AuthManager :=
  mkAuthManager (__enabled self) (__unauth_paths self)
    (__internal_service self) (__force_internal_users self)
    (__external_service self) "".

(** One of the next ten tokens of the source is not a key of the table. *)
Definition fresh_token_available (w : World) : Prop :=
  exists k : nat,
    (k < 10)%nat /\ __sessions w !! token_hex (drawn w + k) = None.

(** Best-effort shutdown: [cleanup] calls the hook of every configured
    service, whatever the other hook did. *)
Definition cleanup_attempts_both (self : AuthManager) (w : World) : Prop :=
  let calls := cleanup_calls (new_events w (cleanup self w).2) in
  (is_Some (__internal_service self) -> In Internal calls)
  /\ (is_Some (__external_service self) -> In External calls).

(** ** Sequences of calls *)

(** A call a client of the manager can make, or the clock moving on. *)
Inductive call : Type :=
| CallAuthorize (user passwd : string)
| CallLogin (user passwd : string) (expire : Z)
| CallCheck (token : string)
| CallLogout (token : string)
| CallCleanup
| Clock (now : Z).

(** The world a call leaves, whether it returned or raised. *)
Definition perform (self : AuthManager) (c : call) (w : World) : World :=
  match c with
  | CallAuthorize user passwd => (authorize self user passwd w).2
  | CallLogin user passwd expire => (login self user passwd expire w).2
  | CallCheck token => (check self token w).2
  | CallLogout token => (logout self token w).2
  | CallCleanup => (cleanup self w).2
  | Clock now => set_monotonic now w
  end.

Definition perform_all (self : AuthManager) (cs : list call) (w : World)
    : World :=
  fold_left (fun w' c => perform self c w') cs w.

(** Every key of the table is a token the source has handed out. *)
Definition keys_drawn (w : World) : Prop :=
  forall token : string,
    is_Some (__sessions w !! token) ->
    exists i : nat, (i < drawn w)%nat /\ token = token_hex i.

(** What [logout] of a session of [user] leaves of an entry. *)
Definition unless_of (user : string) (entry : option _Session.t)
    : option _Session.t :=
  match entry with
  | Some s => if bool_decide (_Session.user s = user) then None else Some s
  | None => None
  end.

(** ** Facts on Python strings *)

Lemma truthy_true s : PyStr.truthy s = true <-> s <> "".
Proof. destruct s; simpl; split; congruence. Qed.

Lemma truthy_false s : PyStr.truthy s = false <-> s = "".
Proof. destruct s; simpl; split; congruence. Qed.

Lemma lstrip_all_space s : PyStr.all_space s = true -> PyStr.lstrip s = "".
Proof.
  unfold PyStr.all_space. induction s as [|c s IH]; simpl; [reflexivity|].
  intros [Hc Hs]%andb_prop. rewrite Hc. auto.
Qed.

Lemma strip_all_space s : PyStr.all_space s = true -> PyStr.strip s = "".
Proof. intros H. unfold PyStr.strip. now rewrite lstrip_all_space. Qed.

Lemma substring_whole s : substring 0 (String.length s) s = s.
Proof. induction s as [|c s IH]; simpl; [reflexivity | now rewrite IH]. Qed.

Lemma substring_prefix_suffix (n : nat) s :
  (n <= String.length s)%nat ->
  substring 0 n s +:+ substring n (String.length s - n) s = s.
Proof.
  revert n. induction s as [|c s IH]; intros [|n] Hn; simpl in Hn.
  - reflexivity.
  - lia.
  - change (substring 0 0 (String c s)) with "".
    rewrite Nat.sub_0_r. apply substring_whole.
  - change (String c (substring 0 n s +:+
                      substring n (String.length s - n) s) = String c s).
    f_equal. apply IH. lia.
Qed.

(** Cutting a password before its last characters and taking these
    characters loses nothing: [s[:-k] + s[-k:] == s]. *)
Lemma slice_split s (k : Z) :
  0 < k -> PyStr.slice_to s (- k) +:+ PyStr.slice_from s (- k) = s.
Proof.
  intros Hk. unfold PyStr.slice_to, PyStr.slice_from.
  apply substring_prefix_suffix. unfold PyStr.bound, PyStr.len.
  destruct (Z.ltb_spec (- k) 0); lia.
Qed.

(** ** Running a method *)

Lemma bind_ok {A B} (c : M A) (k : A -> M B) w a w' :
  c w = (Ok a, w') -> bind c k w = k a w'.
Proof. unfold bind. now intros ->. Qed.

Lemma bind_raise {A B} (c : M A) (k : A -> M B) w e w' :
  c w = (Raise e, w') -> bind c k w = (Raise e, w').
Proof. unfold bind. now intros ->. Qed.

Lemma assert_true {B} (b : bool) (k : unit -> M B) w :
  b = true -> bind (assert_ b) k w = k tt w.
Proof. now intros ->. Qed.

Lemma assert_false {B} (b : bool) (k : unit -> M B) w :
  b = false -> bind (assert_ b) k w = (Raise (AssertionError ""), w).
Proof. now intros ->. Qed.

Lemma assert_cases {B} (b : bool) (k : unit -> M B) w :
  bind (assert_ b) k w = if b then k tt w else (Raise (AssertionError ""), w).
Proof. now destruct b. Qed.

Lemma new_events_add w es : new_events w (add_events es w) = es.
Proof.
  unfold new_events, add_events; simpl.
  now rewrite drop_app_length.
Qed.

Lemma new_events_refl w : new_events w w = [].
Proof. unfold new_events. apply drop_all. Qed.

Lemma add_events_app es1 es2 w :
  add_events es2 (add_events es1 w) = add_events (es1 ++ es2) w.
Proof. unfold add_events; simpl. now rewrite app_assoc. Qed.

Lemma log_unauth_paths_ok paths w :
  exists es, log_unauth_paths paths w = (Ok tt, add_events es w).
Proof.
  revert w. induction paths as [|p paths IH]; intros w; simpl.
  - exists []. unfold ret, add_events. destruct w; simpl.
    now rewrite app_nil_r.
  - unfold bind, log, emit. destruct (IH (add_events
      [Log WARNING "Authorization is disabled for API %r" [Str p]] w))
      as [es ->].
    eexists. now rewrite add_events_app.
Qed.

(** ** Authorization gating *)

(** C8. [is_auth_required] returns a boolean that is true exactly when the
    manager is enabled, the exposed handler declares that it requires
    authorization, and its path is not one of the unauthenticated paths;
    the call leaves the world as it found it. *)
Theorem is_auth_required_exact (self : AuthManager) (exposed : HttpExposed.t)
    (w : World) :
  exists b : bool,
    is_auth_required self exposed w = (Ok b, w)
    /\ b = (__enabled self
            && HttpExposed.auth_required exposed
            && negb (bool_decide
                       (HttpExposed.path exposed ∈ __unauth_paths self)))
    /\ (b = true <->
        __enabled self = true
        /\ HttpExposed.auth_required exposed = true
        /\ HttpExposed.path exposed ∉ __unauth_paths self).
Proof.
  eexists. split; [reflexivity|]. split.
  - f_equal. apply bool_decide_not.
  - rewrite !andb_true_iff, bool_decide_eq_true. tauto.
Qed.

(** A disabled manager comes out of [__init__] without services. *)
Lemma init_disabled unauth_paths internal_type internal_kwargs
    force_internal_users external_type external_kwargs totp_secret_path w :
  exists es,
    __init__ false unauth_paths internal_type internal_kwargs
      force_internal_users external_type external_kwargs totp_secret_path w
    = (Ok (mkAuthManager false (list_to_set unauth_paths) None
             force_internal_users None totp_secret_path),
       set_sessions ∅ (add_events es w)).
Proof.
  unfold __init__; simpl.
  unfold bind at 1, log, emit.
  destruct (log_unauth_paths_ok
              (elements (list_to_set unauth_paths : gset string))
              (add_events [Log WARNING "AUTHORIZATION IS DISABLED" []] w))
    as [es Hes].
  rewrite (bind_ok _ _ _ _ _ Hes).
  eexists. unfold bind, ret, new_sessions. now rewrite add_events_app.
Qed.

Lemma authorize_disabled self user passwd w :
  __enabled self = false ->
  authorize self user passwd w = (Raise (AssertionError ""), w).
Proof.
  intros Hoff. unfold authorize.
  destruct (bool_decide (user = PyStr.strip user)) eqn:E1;
    [rewrite assert_true by done | now rewrite assert_false].
  destruct (PyStr.truthy user) eqn:E2;
    [rewrite assert_true by done | now rewrite assert_false].
  now rewrite assert_false.
Qed.

Lemma login_disabled self user passwd expire w :
  __enabled self = false ->
  login self user passwd expire w = (Raise (AssertionError ""), w).
Proof.
  intros Hoff. unfold login.
  destruct (bool_decide (user = PyStr.strip user)) eqn:E1;
    [rewrite assert_true by done | now rewrite assert_false].
  destruct (PyStr.truthy user) eqn:E2;
    [rewrite assert_true by done | now rewrite assert_false].
  destruct (0 <=? expire) eqn:E3;
    [rewrite assert_true by done | now rewrite assert_false].
  now rewrite assert_false.
Qed.

(** C9. A manager constructed with [enabled = False] is constructed without
    error, and on it every call of [authorize], [login], [check] and
    [logout] ends in an [AssertionError], whatever the arguments and the
    state of the process, and changes nothing. *)
Theorem disabled_manager_asserts unauth_paths internal_type internal_kwargs
    force_internal_users external_type external_kwargs totp_secret_path
    (w0 : World) :
  exists self w1,
    __init__ false unauth_paths internal_type internal_kwargs
      force_internal_users external_type external_kwargs totp_secret_path w0
    = (Ok self, w1)
    /\ forall (user passwd token : string) (expire : Z) (w : World),
         authorize self user passwd w = (Raise (AssertionError ""), w)
         /\ login self user passwd expire w = (Raise (AssertionError ""), w)
         /\ check self token w = (Raise (AssertionError ""), w)
         /\ logout self token w = (Raise (AssertionError ""), w).
Proof.
  destruct (init_disabled unauth_paths internal_type internal_kwargs
              force_internal_users external_type external_kwargs
              totp_secret_path w0) as [es Hinit].
  eexists _, _. split; [exact Hinit|].
  intros user passwd token expire w. split; [|split; [|split]].
  - now apply authorize_disabled.
  - now apply login_disabled.
  - reflexivity.
  - reflexivity.
Qed.

(** ** Token generation *)

Lemma make_new_token_loop_step attempts w :
  make_new_token_loop (S attempts) w =
    let w1 := mkWorld (__sessions w) (monotonic w) (S (drawn w)) (trace w) in
    if bool_decide (__sessions w !! token_hex (drawn w) = None)
    then (Ok (token_hex (drawn w)), w1)
    else make_new_token_loop attempts w1.
Proof.
  simpl. unfold bind, draw_token, get_sessions. simpl.
  now case_bool_decide.
Qed.

Lemma make_new_token_loop_spec attempts : forall w,
  let out := make_new_token_loop attempts w in
  __sessions out.2 = __sessions w
  /\ monotonic out.2 = monotonic w
  /\ trace out.2 = trace w
  /\ match out.1 with
     | Ok token =>
         exists k : nat,
           (k < attempts)%nat
           /\ token = token_hex (drawn w + k)
           /\ drawn out.2 = (drawn w + S k)%nat
           /\ __sessions w !! token = None
           /\ forall j : nat, (j < k)%nat ->
                is_Some (__sessions w !! token_hex (drawn w + j))
     | Raise e =>
         e = AssertionError "Can't generate new unique token"
         /\ drawn out.2 = (drawn w + attempts)%nat
         /\ forall j : nat, (j < attempts)%nat ->
              is_Some (__sessions w !! token_hex (drawn w + j))
     end.
Proof.
  induction attempts as [|n IH]; intros w.
  - simpl. repeat split; try lia.
  - cbv zeta. rewrite make_new_token_loop_step. cbv zeta.
    case_bool_decide as Hfree.
    + simpl. split; [done|]. split; [done|]. split; [done|].
      exists 0%nat. rewrite Nat.add_0_r.
      split; [lia|]. split; [done|]. split; [lia|]. split; [done|].
      intros j Hj. lia.
    + specialize (IH (mkWorld (__sessions w) (monotonic w) (S (drawn w))
                        (trace w))).
      cbv zeta in IH. simpl in IH.
      destruct IH as (Hs & Hm & Ht & Hres).
      split; [exact Hs|]. split; [exact Hm|]. split; [exact Ht|].
      assert (Hfirst : is_Some (__sessions w !! token_hex (drawn w))).
      { destruct (__sessions w !! token_hex (drawn w)); [eauto | done]. }
      destruct (make_new_token_loop n _).1 as [token|e].
      * destruct Hres as (k & Hk & Htok & Hdr & Hnone & Hbusy).
        exists (S k).
        replace (drawn w + S k)%nat with (S (drawn w + k)) by lia.
        split; [lia|]. split; [exact Htok|]. split; [lia|].
        split; [exact Hnone|].
        intros [|j] Hj; [now rewrite Nat.add_0_r|].
        replace (drawn w + S j)%nat with (S (drawn w + j)) by lia.
        apply Hbusy. lia.
      * destruct Hres as (He & Hdr & Hbusy).
        split; [exact He|]. split; [lia|].
        intros [|j] Hj; [now rewrite Nat.add_0_r|].
        replace (drawn w + S j)%nat with (S (drawn w + j)) by lia.
        apply Hbusy. lia.
Qed.

(** C7. [__make_new_token] draws at most ten tokens and always ends: it
    returns the first drawn token that is not a key of the session table
    (so the token it returns is absent from the table at that moment, and
    every token drawn before it was a key), or, when all ten drawn tokens
    are keys of the table, it raises the [AssertionError] "Can't generate
    new unique token". It changes nothing but the state of the token
    source. *)
Theorem make_new_token_fresh_or_fatal (w : World) :
  let out := __make_new_token w in
  __sessions out.2 = __sessions w
  /\ monotonic out.2 = monotonic w
  /\ trace out.2 = trace w
  /\ (drawn out.2 <= drawn w + 10)%nat
  /\ match out.1 with
     | Ok token =>
         __sessions w !! token = None
         /\ exists k : nat,
              (k < 10)%nat
              /\ token = token_hex (drawn w + k)
              /\ drawn out.2 = (drawn w + S k)%nat
              /\ forall j : nat, (j < k)%nat ->
                   is_Some (__sessions w !! token_hex (drawn w + j))
     | Raise e =>
         e = AssertionError "Can't generate new unique token"
         /\ drawn out.2 = (drawn w + 10)%nat
         /\ forall j : nat, (j < 10)%nat ->
              is_Some (__sessions w !! token_hex (drawn w + j))
     end.
Proof.
  pose proof (make_new_token_loop_spec 10 w) as H. cbv zeta in H |- *.
  unfold __make_new_token.
  destruct H as (Hs & Hm & Ht & Hres).
  split; [exact Hs|]. split; [exact Hm|]. split; [exact Ht|].
  destruct (make_new_token_loop 10 w).1 as [token|e].
  - destruct Hres as (k & Hk & Htok & Hdr & Hnone & Hbusy).
    split; [lia|]. split; [exact Hnone|]. exists k. auto.
  - destruct Hres as (He & Hdr & Hbusy). split; [lia|]. auto.
Qed.

(** ** Credential verification *)

Lemma same_state_refl w : same_state w w.
Proof. now unfold same_state. Qed.

Lemma same_state_add es w : same_state w (add_events es w).
Proof. now unfold same_state. Qed.

Lemma authorize_by_service_run self user passwd internal w :
  verified_with self user passwd internal w
    (authorize_by_service self user passwd internal w).
Proof.
  unfold verified_with, authorize_by_service.
  destruct (select_service self user internal) as [sl service].
  unfold bind, emit, lift, log, emit, ret.
  destruct (BaseAuthService.authorize service user passwd) as [[|]|e]; simpl;
    rewrite ?add_events_app, new_events_add; simpl;
    (split; [reflexivity|]; split; [reflexivity|]; apply same_state_add).
Qed.

(** [authorize], with its sequence of steps written as one case analysis. *)
Lemma authorize_run self user passwd w :
  authorize self user passwd w =
    if negb (bool_decide (user = PyStr.strip user) && PyStr.truthy user
             && __enabled self)
    then (Raise (AssertionError ""), w)
    else
      match __internal_service self with
      | None => (Raise (AssertionError ""), w)
      | Some internal =>
          if PyStr.truthy (__totp_secret_path self) then
            match read_file (__totp_secret_path self) with
            | Raise e => (Raise e, w)
            | Ok content =>
                if PyStr.truthy (PyStr.strip content) then
                  match totp_verify (PyStr.strip content)
                          (PyStr.slice_from passwd (-6)) with
                  | Raise e => (Raise e, w)
                  | Ok false =>
                      (Ok false,
                       add_events
                         [Log ERROR "Got access denied for user %r by TOTP"
                            [Str user]] w)
                  | Ok true =>
                      authorize_by_service self user
                        (PyStr.slice_to passwd (-6)) internal w
                  end
                else authorize_by_service self user passwd internal w
            end
          else authorize_by_service self user passwd internal w
      end.
Proof.
  unfold authorize, bind, assert_, assert_some, lift, ret, raise, log, emit.
  destruct (bool_decide (user = PyStr.strip user)); [|reflexivity].
  destruct (PyStr.truthy user); [|reflexivity].
  destruct (__enabled self); [|reflexivity].
  destruct (__internal_service self) as [internal|]; [|reflexivity].
  simpl.
  destruct (PyStr.truthy (__totp_secret_path self)); [|reflexivity].
  destruct (read_file (__totp_secret_path self)) as [content|e];
    [|reflexivity].
  destruct (PyStr.truthy (PyStr.strip content)); [|reflexivity].
  destruct (totp_verify _ _) as [[|]|e]; reflexivity.
Qed.

Ltac delegated internal :=
  right; exists internal; eexists;
  split; [reflexivity | apply authorize_by_service_run].

Ltac stopped :=
  left; simpl; rewrite ?new_events_refl, ?new_events_add;
  split; [reflexivity|];
  split; [first [apply same_state_refl | apply same_state_add]
         | discriminate].

(** The ways a run of [authorize] can go: it stops before any service is
    called, or it calls the selected service once with some password. *)
Lemma authorize_cases self user passwd w :
  let out := authorize self user passwd w in
  (service_calls (new_events w out.2) = [] /\ same_state w out.2
   /\ out.1 <> Ok true)
  \/ (exists internal p,
        __internal_service self = Some internal
        /\ verified_with self user p internal w out).
Proof.
  cbv zeta. rewrite authorize_run.
  destruct (negb _); [stopped|].
  destruct (__internal_service self) as [internal|]; [|stopped].
  destruct (PyStr.truthy (__totp_secret_path self));
    [|delegated internal].
  destruct (read_file (__totp_secret_path self)) as [content|e]; [|stopped].
  destruct (PyStr.truthy (PyStr.strip content)); [|delegated internal].
  destruct (totp_verify _ _) as [[|]|e];
    [delegated internal | stopped | stopped].
Qed.

Lemma preconditions_hold self user :
  user = PyStr.strip user -> user <> "" -> __enabled self = true ->
  negb (bool_decide (user = PyStr.strip user) && PyStr.truthy user
        && __enabled self) = false.
Proof.
  intros Hstrip Hne Hon.
  rewrite (bool_decide_eq_true_2 _ Hstrip), Hon.
  apply truthy_true in Hne. now rewrite Hne.
Qed.

Lemma select_service_spec self user internal :
  __internal_service self = Some internal ->
  let '(sl, service) := select_service self user internal in
  (sl = Internal <->
   (user ∈ __force_internal_users self) \/ __external_service self = None)
  /\ (sl = External <->
      (user ∉ __force_internal_users self)
      /\ is_Some (__external_service self))
  /\ service_in self sl = Some service.
Proof.
  intros Hint. unfold select_service.
  case_bool_decide as Hforce.
  - destruct (__external_service self) as [external|] eqn:Hext; simpl.
    + split; [|split; [|exact Hext]].
      * split; [discriminate|]. intros [?|?]; [contradiction|discriminate].
      * split; [eauto|reflexivity].
    + split; [|split; [|exact Hint]].
      * split; auto.
      * split; [discriminate|]. intros [_ [? ?]]. discriminate.
  - simpl.
    split; [|split; [|exact Hint]].
    + split; auto.
    + split; [discriminate|]. intros [? _]. contradiction.
Qed.

(** Past the asserts and the TOTP gate, [authorize] is the call to the
    selected service: with the core password when a secret is configured
    and the code was accepted, with the whole password without a secret. *)
Lemma authorize_reaches_service self user passwd secret internal w :
  user = PyStr.strip user ->
  user <> "" ->
  __enabled self = true ->
  __internal_service self = Some internal ->
  configured_secret self secret ->
  secret = ""
  \/ totp_verify secret (PyStr.slice_from passwd (-6)) = Ok true ->
  authorize self user passwd w
  = authorize_by_service self user
      (if PyStr.truthy secret then PyStr.slice_to passwd (-6) else passwd)
      internal w.
Proof.
  intros Hstrip Hne Hon Hint Hsecret Hgate.
  rewrite authorize_run, (preconditions_hold _ _ Hstrip Hne Hon), Hint.
  unfold configured_secret in Hsecret.
  destruct (PyStr.truthy (__totp_secret_path self)).
  - destruct Hsecret as (content & -> & ->).
    destruct (PyStr.truthy (PyStr.strip content)) eqn:Hsec; [|reflexivity].
    destruct Hgate as [Hempty | ->]; [|reflexivity].
    apply truthy_true in Hsec. contradiction.
  - now subst secret.
Qed.

(** C1. With the preconditions of [authorize] met and [secret] the TOTP
    secret the call works with: the password is the core password
    [passwd[:-6]] followed by the code [passwd[-6:]]; if the secret is not
    empty and the code is refused, [authorize] returns [False] and no auth
    service is called; if the secret is not empty and the code is accepted,
    the selected service is called once, with the core password, and its
    answer is the result; if the secret is empty, the selected service is
    called once with the whole password. *)
Theorem authorize_totp_gate (self : AuthManager) (user passwd secret : string)
    (internal : BaseAuthService.t) (w : World) :
  user = PyStr.strip user ->
  user <> "" ->
  __enabled self = true ->
  __internal_service self = Some internal ->
  configured_secret self secret ->
  let out := authorize self user passwd w in
  let totpCode := PyStr.slice_from passwd (-6) in
  let corePassword := PyStr.slice_to passwd (-6) in
  corePassword +:+ totpCode = passwd
  /\ (secret <> "" -> totp_verify secret totpCode = Ok false ->
      out.1 = Ok false
      /\ service_calls (new_events w out.2) = []
      /\ same_state w out.2)
  /\ (secret <> "" -> totp_verify secret totpCode = Ok true ->
      verified_with self user corePassword internal w out)
  /\ (secret = "" -> verified_with self user passwd internal w out).
Proof.
  intros Hstrip Hne Hon Hint Hsecret. cbv zeta.
  split; [now apply (slice_split passwd 6)|].
  rewrite authorize_run, (preconditions_hold _ _ Hstrip Hne Hon), Hint.
  unfold configured_secret in Hsecret.
  destruct (PyStr.truthy (__totp_secret_path self)).
  - destruct Hsecret as (content & -> & ->).
    destruct (PyStr.truthy (PyStr.strip content)) eqn:Hsec.
    + apply truthy_true in Hsec.
      split; [|split].
      * intros _ ->. simpl. rewrite new_events_add.
        split; [reflexivity|]. split; [reflexivity|]. apply same_state_add.
      * intros _ ->. apply authorize_by_service_run.
      * intros Hempty. contradiction.
    + apply truthy_false in Hsec.
      split; [|split].
      * intros Hfull. contradiction.
      * intros Hfull. contradiction.
      * intros _. apply authorize_by_service_run.
  - subst secret. split; [|split].
    + intros Hfull. contradiction.
    + intros Hfull. contradiction.
    + intros _. apply authorize_by_service_run.
Qed.

(** C5. Whatever [authorize] is called with, every call it makes to an auth
    service is for the user it was given, goes to the internal service
    exactly when the user is one of the forced internal users or no
    external service is configured, goes to the external service exactly
    when the user is not forced and an external service is configured, and
    the answer of that service is the outcome of [authorize]. And the call
    is made: with the preconditions of [authorize] met and the TOTP gate
    open (no secret, or a secret and an accepted code), [authorize] makes
    exactly one call, to the service selected in this way, with the
    password left after the gate, and returns its answer. *)
Theorem authorize_service_choice (self : AuthManager) (user passwd : string)
    (w : World) :
  let out := authorize self user passwd w in
  (forall (sl : slot) (u p : string),
     In (sl, u, p) (service_calls (new_events w out.2)) ->
     u = user
     /\ (sl = Internal <->
         (user ∈ __force_internal_users self)
         \/ __external_service self = None)
     /\ (sl = External <->
         (user ∉ __force_internal_users self)
         /\ is_Some (__external_service self))
     /\ exists service,
          service_in self sl = Some service
          /\ out.1 = BaseAuthService.authorize service user p)
  /\ (forall (internal : BaseAuthService.t) (secret : string),
        user = PyStr.strip user ->
        user <> "" ->
        __enabled self = true ->
        __internal_service self = Some internal ->
        configured_secret self secret ->
        secret = ""
        \/ totp_verify secret (PyStr.slice_from passwd (-6)) = Ok true ->
        exists (sl : slot) (service : BaseAuthService.t),
          service_calls (new_events w out.2)
          = [(sl, user,
              if PyStr.truthy secret then PyStr.slice_to passwd (-6)
              else passwd)]
          /\ service_in self sl = Some service
          /\ (sl = Internal <->
              (user ∈ __force_internal_users self)
              \/ __external_service self = None)
          /\ (sl = External <->
              (user ∉ __force_internal_users self)
              /\ is_Some (__external_service self))
          /\ out.1
             = BaseAuthService.authorize service user
                 (if PyStr.truthy secret then PyStr.slice_to passwd (-6)
                  else passwd)).
Proof.
  cbv zeta. split.
  - intros sl u p Hcall.
    destruct (authorize_cases self user passwd w)
      as [(Hnone & _) | (internal & p' & Hint & Hrun)].
    + rewrite Hnone in Hcall. destruct Hcall.
    + unfold verified_with in Hrun.
      pose proof (select_service_spec self user internal Hint) as Hsel.
      destruct (select_service self user internal) as [sl' service].
      destruct Hrun as (Hres & Hcalls & _).
      rewrite Hcalls in Hcall. destruct Hcall as [Heq|[]].
      injection Heq as <- <- <-.
      destruct Hsel as (Hi & He & Hsvc).
      split; [reflexivity|]. split; [exact Hi|]. split; [exact He|].
      exists service. auto.
  - intros internal secret Hstrip Hne Hon Hint Hsecret Hgate.
    rewrite (authorize_reaches_service self user passwd secret internal w
               Hstrip Hne Hon Hint Hsecret Hgate).
    pose proof (authorize_by_service_run self user
                  (if PyStr.truthy secret then PyStr.slice_to passwd (-6)
                   else passwd) internal w) as Hrun.
    unfold verified_with in Hrun.
    pose proof (select_service_spec self user internal Hint) as Hsel.
    destruct (select_service self user internal) as [sl service].
    destruct Hrun as (Hres & Hcalls & _).
    destruct Hsel as (Hi & He & Hsvc).
    exists sl, service.
    split; [exact Hcalls|]. split; [exact Hsvc|].
    split; [exact Hi|]. split; [exact He | exact Hres].
Qed.

(** C10. With a TOTP secret path configured, a secret file that holds
    nothing but whitespace is read as the empty secret: [authorize] then
    runs exactly as on the same manager without a secret path, the TOTP
    check is skipped, and the selected service is called once with the
    whole, unmodified password. *)
Theorem blank_secret_is_no_secret (self : AuthManager)
    (user passwd content : string) (internal : BaseAuthService.t)
    (w : World) :
  user = PyStr.strip user ->
  user <> "" ->
  __enabled self = true ->
  __internal_service self = Some internal ->
  __totp_secret_path self <> "" ->
  read_file (__totp_secret_path self) = Ok content ->
  PyStr.all_space content = true ->
  PyStr.strip content = ""
  /\ authorize self user passwd w = authorize (without_totp self) user passwd w
  /\ verified_with self user passwd internal w (authorize self user passwd w).
Proof.
  intros Hstrip Hne Hon Hint Hpath Hread Hblank.
  pose proof (strip_all_space _ Hblank) as Hempty.
  split; [exact Hempty|].
  assert (Hrun : authorize self user passwd w
                 = authorize_by_service self user passwd internal w).
  { rewrite authorize_run, (preconditions_hold _ _ Hstrip Hne Hon), Hint.
    apply truthy_true in Hpath. now rewrite Hpath, Hread, Hempty. }
  split.
  - rewrite Hrun, authorize_run. simpl.
    now rewrite (preconditions_hold _ _ Hstrip Hne Hon), Hint.
  - rewrite Hrun. apply authorize_by_service_run.
Qed.

(** ** Token validation *)

Lemma check_absent self token w :
  __enabled self = true ->
  __sessions w !! token = None ->
  check self token w = (Ok None, w).
Proof.
  intros Hon Hnone. unfold check. rewrite assert_true by done.
  unfold bind, get_sessions. now rewrite Hnone.
Qed.

Lemma check_present self token session w :
  __enabled self = true ->
  __sessions w !! token = Some session ->
  _Session.valid session = true ->
  check self token w =
    if (_Session.expire_ts session =? 0)
       || (monotonic w <? _Session.expire_ts session)
    then (Ok (Some (_Session.user session)), w)
    else (Ok None, set_sessions (delete token (__sessions w)) w).
Proof.
  intros Hon Hsome Hvalid. unfold check. rewrite assert_true by done.
  unfold _Session.valid in Hvalid.
  apply andb_prop in Hvalid as [Hvalid Hexp].
  apply andb_prop in Hvalid as [_ Huser].
  apply Z.leb_le in Hexp.
  unfold bind, get_sessions, __get_now_ts, delitem. rewrite Hsome.
  destruct (Z.leb_spec (_Session.expire_ts session) 0) as [Hle|Hgt].
  - assert (_Session.expire_ts session = 0) as -> by lia.
    now rewrite Huser.
  - destruct (Z.eqb_spec (_Session.expire_ts session) 0) as [Hz|_]; [lia|].
    simpl. destruct (monotonic w <? _Session.expire_ts session).
    + now rewrite Huser.
    + now rewrite Hsome.
Qed.

(** C2. On an enabled manager whose table holds valid sessions, [check]
    returns [None] and leaves the world alone when the token is not in the
    table; returns the user of a session with [expire_ts == 0] and of a
    session whose [expire_ts] the clock has not reached, leaving the world
    alone; and otherwise deletes the entry of that token, and no other,
    and returns [None], after which a further [check] of the token, at any
    time, returns [None] again and changes nothing. *)
Theorem check_lazy_expiry (self : AuthManager) (token : string) (w : World) :
  __enabled self = true ->
  valid_table (__sessions w) ->
  match __sessions w !! token with
  | None => check self token w = (Ok None, w)
  | Some session =>
      let user := _Session.user session in
      let expireAt := _Session.expire_ts session in
      if expireAt =? 0 then check self token w = (Ok (Some user), w)
      else if monotonic w <? expireAt then
        check self token w = (Ok (Some user), w)
      else
        let w' := set_sessions (delete token (__sessions w)) w in
        check self token w = (Ok None, w')
        /\ __sessions w' !! token = None
        /\ (forall t, t <> token -> __sessions w' !! t = __sessions w !! t)
        /\ forall now : Z,
             check self token (set_monotonic now w')
             = (Ok None, set_monotonic now w')
  end.
Proof.
  intros Hon Hvalid.
  destruct (__sessions w !! token) as [session|] eqn:Hlook.
  - cbv zeta.
    pose proof (check_present self token session w Hon Hlook
                  (Hvalid _ _ Hlook)) as Hrun.
    destruct (_Session.expire_ts session =? 0); [exact Hrun|].
    destruct (monotonic w <? _Session.expire_ts session); [exact Hrun|].
    simpl in Hrun. split; [exact Hrun|].
    split; [apply lookup_delete_eq|].
    split; [intros t Ht; now apply lookup_delete_ne|].
    intros now. apply check_absent; [exact Hon|]. apply lookup_delete_eq.
  - now apply check_absent.
Qed.

(** ** Logout *)

(** The loop of [logout] over a snapshot whose keys are distinct and whose
    items are all in the table: no [del] fails, the sessions of [user] are
    counted and deleted, and nothing else is touched. *)
Lemma logout_loop_run user items : forall (count : Z) (w : World),
  NoDup items.*1 ->
  (forall k s, (k, s) ∈ items -> __sessions w !! k = Some s) ->
  exists m' : gmap string _Session.t,
    logout_loop user items count w
    = (Ok (count + Z.of_nat (length (sessions_of user items))),
       set_sessions m' w)
    /\ (forall k s, (k, s) ∈ items -> _Session.user s = user ->
        m' !! k = None)
    /\ (forall t, (forall s, (t, s) ∈ items -> _Session.user s <> user) ->
        m' !! t = __sessions w !! t).
Proof.
  induction items as [|[k0 s0] rest IH]; intros count w Hdup Hin.
  - exists (__sessions w). simpl. unfold ret, set_sessions.
    rewrite Z.add_0_r. destruct w; simpl.
    split; [reflexivity|]. split; [|reflexivity].
    intros k s Hk. inversion Hk.
  - rewrite fmap_cons in Hdup. apply NoDup_cons in Hdup as [Hk0 Hdup].
    assert (Hrest : forall k s, (k, s) ∈ rest -> k <> k0).
    { intros k s Hk ->. apply Hk0.
      apply (list_elem_of_fmap_2 fst) in Hk. exact Hk. }
    simpl. unfold sessions_of. case_bool_decide as Huser.
    + rewrite filter_cons_True by exact Huser.
      assert (Hdel : delitem k0 w
                     = (Ok tt, set_sessions (delete k0 (__sessions w)) w)).
      { unfold delitem. rewrite (Hin k0 s0) by (left). reflexivity. }
      rewrite (bind_ok _ _ _ _ _ Hdel).
      destruct (IH (count + 1)
                  (set_sessions (delete k0 (__sessions w)) w) Hdup)
        as (m' & Hrun & Hgone & Hkept).
      { intros k s Hk. simpl.
        rewrite lookup_delete_ne by (intros ->; now apply (Hrest _ _ Hk)).
        apply Hin. now right. }
      exists m'. split; [|split].
      * rewrite Hrun. unfold sessions_of, set_sessions. simpl.
        f_equal. f_equal. lia.
      * intros k s Hk Hu. apply elem_of_cons in Hk as [Heq|Hk].
        -- injection Heq as -> ->.
           rewrite Hkept; [simpl; apply lookup_delete_eq|].
           intros s Hs. exfalso. now apply (Hrest _ _ Hs).
        -- now apply (Hgone k s).
      * intros t Ht. rewrite Hkept.
        -- simpl. apply lookup_delete_ne. intros <-.
           now apply (Ht s0); [left|].
        -- intros s Hs. apply Ht. now right.
    + rewrite filter_cons_False by exact Huser.
      destruct (IH count w Hdup) as (m' & Hrun & Hgone & Hkept).
      { intros k s Hk. apply Hin. now right. }
      exists m'. split; [exact Hrun|]. split.
      * intros k s Hk Hu. apply elem_of_cons in Hk as [Heq|Hk].
        -- injection Heq as -> ->. contradiction.
        -- now apply (Hgone k s).
      * intros t Ht. apply Hkept. intros s Hs. apply Ht. now right.
Qed.

(** C3. On an enabled manager, [logout] of a token that is in the table
    returns normally and removes every entry whose session has the user of
    that token, so that [check] of any of these tokens then returns [None];
    every entry of another user is kept as it was, no entry appears, and
    the count that is logged is the number of entries removed. [logout] of
    a token that is not in the table returns normally and changes
    nothing. *)
Theorem logout_all_sessions_of_user (self : AuthManager) (token : string)
    (w : World) :
  __enabled self = true ->
  match __sessions w !! token with
  | None => logout self token w = (Ok tt, w)
  | Some session =>
      let user := _Session.user session in
      exists w' : World,
        logout self token w = (Ok tt, w')
        /\ (forall t s, __sessions w !! t = Some s ->
            _Session.user s = user ->
            __sessions w' !! t = None
            /\ check self t w' = (Ok None, w'))
        /\ (forall t s, __sessions w !! t = Some s ->
            _Session.user s <> user ->
            __sessions w' !! t = Some s)
        /\ (forall t, __sessions w !! t = None -> __sessions w' !! t = None)
        /\ monotonic w' = monotonic w
        /\ drawn w' = drawn w
        /\ trace w' =
           (trace w ++
              [Log INFO "Logged out user %r (was=%d)"
                 [Str user;
                  Int (Z.of_nat
                         (length (sessions_of user
                                    (map_to_list (__sessions w)))))]])%list
  end.
Proof.
  intros Hon. unfold logout. rewrite assert_true by done.
  rewrite (bind_ok get_sessions _ w (__sessions w) w eq_refl).
  destruct (__sessions w !! token) as [session|] eqn:Hlook; [|reflexivity].
  cbv zeta.
  destruct (logout_loop_run (_Session.user session)
              (map_to_list (__sessions w)) 0 w)
    as (m' & Hrun & Hgone & Hkept).
  { apply NoDup_fst_map_to_list. }
  { intros k s Hk. now apply elem_of_map_to_list. }
  rewrite (bind_ok _ _ _ _ _ Hrun). unfold log, emit.
  eexists. split; [reflexivity|]. simpl.
  split; [|split; [|split]].
  - intros t s Ht Hu.
    assert (Hnone : m' !! t = None).
    { apply (Hgone t s); [now apply elem_of_map_to_list | exact Hu]. }
    split; [exact Hnone|]. now apply check_absent.
  - intros t s Ht Hu. rewrite Hkept; [exact Ht|].
    intros s' Hs'. apply elem_of_map_to_list in Hs'.
    rewrite Ht in Hs'. injection Hs' as <-. exact Hu.
  - intros t Ht. rewrite Hkept; [exact Ht|].
    intros s' Hs'. apply elem_of_map_to_list in Hs'.
    rewrite Ht in Hs'. discriminate.
  - auto.
Qed.

(** ** Login *)

Lemma authorize_same_state self user passwd w :
  same_state w (authorize self user passwd w).2.
Proof.
  destruct (authorize_cases self user passwd w)
    as [(_ & Hsame & _) | (internal & p & _ & Hrun)]; [exact Hsame|].
  unfold verified_with in Hrun.
  destruct (select_service self user internal) as [sl service].
  exact (proj2 (proj2 Hrun)).
Qed.

Lemma new_Session_ok user expire_ts w :
  user = PyStr.strip user -> user <> "" -> 0 <= expire_ts ->
  new_Session user expire_ts w = (Ok (_Session.mk user expire_ts), w)
  /\ _Session.valid (_Session.mk user expire_ts) = true.
Proof.
  intros Hstrip Hne Hexp. apply truthy_true in Hne.
  apply Z.leb_le in Hexp.
  unfold new_Session, _Session.valid; simpl.
  rewrite <- Hstrip, Hne, Hexp. split; reflexivity.
Qed.

(** [login] once [authorize] has answered. *)
Lemma login_run self user passwd expire w :
  user = PyStr.strip user -> user <> "" -> 0 <= expire ->
  __enabled self = true ->
  login self user passwd expire w =
    match authorize self user passwd w with
    | (Ok true, w1) =>
        match __make_new_token w1 with
        | (Ok token, w2) =>
            let expire_ts :=
              if expire <=? 0 then 0 else monotonic w2 + expire in
            match new_Session user expire_ts w2 with
            | (Ok session, w3) =>
                (Ok (Some token),
                 add_events
                   [Log INFO "Logged in user %r (expire_ts=%d)"
                      [Str (_Session.user session);
                       Int (_Session.expire_ts session)]]
                   (set_sessions (<[token := session]> (__sessions w3)) w3))
            | (Raise e, w3) => (Raise e, w3)
            end
        | (Raise e, w2) => (Raise e, w2)
        end
    | (Ok false, w1) => (Ok None, w1)
    | (Raise e, w1) => (Raise e, w1)
    end.
Proof.
  intros Hstrip Hne Hexp Hon. unfold login.
  rewrite assert_true by now apply bool_decide_eq_true_2.
  rewrite assert_true by now apply truthy_true.
  rewrite assert_true by now apply Z.leb_le.
  rewrite assert_true by done.
  unfold bind at 1.
  destruct (authorize self user passwd w) as [[[|]|e] w1]; try reflexivity.
  unfold bind at 1.
  destruct (__make_new_token w1) as [[token|e] w2]; [|reflexivity].
  cbv zeta. unfold bind at 1.
  destruct (expire <=? 0).
  - unfold ret at 1. unfold bind at 1.
    destruct (new_Session user 0 w2) as [[session|e] w3]; reflexivity.
  - unfold bind at 1, __get_now_ts, ret at 1. unfold bind at 1.
    destruct (new_Session user (monotonic w2 + expire) w2)
      as [[session|e] w3]; reflexivity.
Qed.

(** C4. With the preconditions of [login] met ([user] stripped and not
    empty, [expire >= 0], manager enabled): if [authorize] returns [True],
    the clock is not negative and the token source still has a token that
    is not in the table among its next ten, then [login] returns a token
    that was not a key of the table, the table after the call is the table
    before it with that token bound to a session of [user] with
    [expire_ts = 0] when [expire <= 0] and [now + expire] otherwise, and
    [check] of the token right away returns [user]; if [authorize] returns
    [False], [login] returns [None] and the table is unchanged; if
    [authorize] raises, so does [login], and the table is unchanged. *)
Theorem login_issues_session (self : AuthManager) (user passwd : string)
    (expire : Z) (w : World) :
  user = PyStr.strip user ->
  user <> "" ->
  0 <= expire ->
  __enabled self = true ->
  let out := login self user passwd expire w in
  match (authorize self user passwd w).1 with
  | Ok true =>
      0 <= monotonic w ->
      fresh_token_available w ->
      exists token : string,
        out.1 = Ok (Some token)
        /\ __sessions w !! token = None
        /\ __sessions out.2 =
           <[token := _Session.mk user
                        (if expire <=? 0 then 0 else monotonic w + expire)]>
             (__sessions w)
        /\ check self token out.2 = (Ok (Some user), out.2)
  | Ok false => out.1 = Ok None /\ __sessions out.2 = __sessions w
  | Raise e => out.1 = Raise e /\ __sessions out.2 = __sessions w
  end.
Proof.
  intros Hstrip Hne Hexp Hon. cbv zeta.
  rewrite (login_run _ _ _ _ _ Hstrip Hne Hexp Hon).
  destruct (authorize_same_state self user passwd w) as (Hs & Hm & Hd).
  destruct (authorize self user passwd w) as [[[|]|e] w1];
    simpl in Hs, Hm, Hd |- *; [|now split|now split].
  intros Hclock (k & Hk & Hfree).
  pose proof (make_new_token_loop_spec 10 w1) as Htok. cbv zeta in Htok.
  unfold __make_new_token.
  destruct (make_new_token_loop 10 w1) as [[token|e] w2]; simpl in Htok.
  - destruct Htok as (Hs2 & Hm2 & _ & _ & _ & _ & _ & Hnone & _).
    set (expire_ts := if expire <=? 0 then 0 else monotonic w2 + expire).
    assert (Hts : 0 <= expire_ts).
    { unfold expire_ts. destruct (expire <=? 0); lia. }
    destruct (new_Session_ok user expire_ts w2 Hstrip Hne Hts)
      as [-> Hvalid].
    exists token. simpl.
    split; [reflexivity|]. split; [now rewrite <- Hs|].
    split; [unfold expire_ts; now rewrite Hs2, Hs, Hm2, Hm|].
    rewrite (check_present self token (_Session.mk user expire_ts));
      [| exact Hon | simpl; apply lookup_insert_eq | exact Hvalid].
    simpl.
    assert (Hlive : (expire_ts =? 0) || (monotonic w2 <? expire_ts) = true).
    { unfold expire_ts.
      destruct (Z.leb_spec expire 0); [reflexivity|].
      apply orb_true_iff. right. apply Z.ltb_lt. lia. }
    now rewrite Hlive.
  - destruct Htok as (_ & _ & _ & _ & _ & Hbusy).
    destruct (Hbusy k Hk) as [s Hs']. rewrite Hs, Hd, Hfree in Hs'.
    discriminate.
Qed.

(** ** Shutdown *)

(** C6, as the code has it. [cleanup] on an enabled manager calls the
    [cleanup] of the internal service first; it goes on to the [cleanup] of
    the external service exactly when one is configured and the first call
    returned; when the first call raises, the exception leaves [cleanup] at
    once and the external service is not called. A disabled manager calls
    nothing. The session table is never touched. *)
Theorem cleanup_in_sequence (self : AuthManager) (w : World) :
  let out := cleanup self w in
  same_state w out.2
  /\ if __enabled self then
       match __internal_service self with
       | None => out = (Raise (AssertionError ""), w)
       | Some internal =>
           match BaseAuthService.cleanup internal with
           | Raise e =>
               out.1 = Raise e
               /\ cleanup_calls (new_events w out.2) = [Internal]
           | Ok _ =>
               match __external_service self with
               | Some external =>
                   out.1 = BaseAuthService.cleanup external
                   /\ cleanup_calls (new_events w out.2)
                      = [Internal; External]
               | None =>
                   out.1 = Ok tt
                   /\ cleanup_calls (new_events w out.2) = [Internal]
               end
           end
       end
     else out = (Ok tt, w).
Proof.
  cbv zeta. unfold cleanup.
  destruct (__enabled self); [|split; [apply same_state_refl | reflexivity]].
  destruct (__internal_service self) as [internal|]; simpl;
    [|split; [apply same_state_refl | reflexivity]].
  unfold bind, ret, call_cleanup, bind, emit, lift.
  destruct (BaseAuthService.cleanup internal) as [[]|e]; simpl.
  - destruct (__external_service self) as [external|]; simpl.
    + rewrite add_events_app, new_events_add. simpl.
      split; [apply same_state_add|]. split; [|reflexivity].
      now destruct (BaseAuthService.cleanup external) as [[]|e].
    + rewrite new_events_add. simpl.
      split; [apply same_state_add|]. now split.
  - rewrite new_events_add. split; [apply same_state_add|]. now split.
Qed.

(** ** The invariant of the session table *)

Lemma empty_table_valid : valid_table ∅.
Proof. apply map_Forall_empty. Qed.

Lemma check_keeps_valid self token w :
  valid_table (__sessions w) -> valid_table (__sessions (check self token w).2).
Proof.
  intros Hvalid. unfold check, bind, assert_, get_sessions, __get_now_ts,
    delitem, ret, raise.
  destruct (__enabled self); [|exact Hvalid]. simpl.
  destruct (__sessions w !! token) as [session|] eqn:Hlook; [|exact Hvalid].
  destruct (_Session.expire_ts session <=? 0).
  - now destruct (PyStr.truthy (_Session.user session)).
  - destruct (monotonic w <? _Session.expire_ts session).
    + now destruct (PyStr.truthy (_Session.user session)).
    + rewrite Hlook. simpl. now apply map_Forall_delete.
Qed.

Lemma new_Session_outcome user expire_ts w :
  match new_Session user expire_ts w with
  | (Ok session, w') =>
      w' = w
      /\ session = _Session.mk user expire_ts
      /\ _Session.valid session = true
  | (Raise _, w') => w' = w
  end.
Proof.
  unfold new_Session, _Session.valid, bind, assert_, ret, raise; simpl.
  destruct (PyStr.truthy (PyStr.strip user)) eqn:E1; [|reflexivity].
  destruct (PyStr.truthy user) eqn:E2; [|reflexivity].
  destruct (0 <=? expire_ts) eqn:E3; [|reflexivity].
  split; [reflexivity|]. split; [reflexivity|].
  simpl. now rewrite E1, E2, E3.
Qed.

Lemma login_keeps_valid self user passwd expire w :
  valid_table (__sessions w) ->
  valid_table (__sessions (login self user passwd expire w).2).
Proof.
  intros Hvalid. unfold login.
  rewrite assert_cases.
  destruct (bool_decide (user = PyStr.strip user)); [|exact Hvalid].
  rewrite assert_cases. destruct (PyStr.truthy user); [|exact Hvalid].
  rewrite assert_cases. destruct (0 <=? expire); [|exact Hvalid].
  rewrite assert_cases. destruct (__enabled self); [|exact Hvalid].
  unfold bind at 1.
  destruct (authorize_same_state self user passwd w) as (Hs & _ & _).
  destruct (authorize self user passwd w) as [[[|]|e] w1];
    simpl in Hs |- *; [| now rewrite Hs | now rewrite Hs].
  unfold bind at 1.
  destruct (make_new_token_loop_spec 10 w1) as (Hs2 & _).
  unfold __make_new_token.
  destruct (make_new_token_loop 10 w1) as [[token|e] w2];
    simpl in Hs2 |- *; [| now rewrite Hs2, Hs].
  assert (Hvalid2 : valid_table (__sessions w2)) by now rewrite Hs2, Hs.
  unfold bind at 1.
  destruct (expire <=? 0).
  - unfold ret at 1. unfold bind at 1.
    pose proof (new_Session_outcome user 0 w2) as Hnew.
    destruct (new_Session user 0 w2) as [[session|e] w3].
    + destruct Hnew as (-> & _ & Hok). simpl.
      now apply map_Forall_insert_2.
    + now subst w3.
  - unfold bind at 1, __get_now_ts, ret at 1. unfold bind at 1.
    pose proof (new_Session_outcome user (monotonic w2 + expire) w2) as Hnew.
    destruct (new_Session user (monotonic w2 + expire) w2)
      as [[session|e] w3].
    + destruct Hnew as (-> & _ & Hok). simpl.
      now apply map_Forall_insert_2.
    + now subst w3.
Qed.

Lemma logout_keeps_valid self token w :
  valid_table (__sessions w) ->
  valid_table (__sessions (logout self token w).2).
Proof.
  intros Hvalid. unfold logout, bind at 1, assert_.
  destruct (__enabled self); [|exact Hvalid]. unfold ret at 1.
  rewrite (bind_ok get_sessions _ w (__sessions w) w eq_refl).
  destruct (__sessions w !! token) as [session|]; [|exact Hvalid].
  destruct (logout_loop_run (_Session.user session)
              (map_to_list (__sessions w)) 0 w)
    as (m' & Hrun & Hgone & Hkept).
  { apply NoDup_fst_map_to_list. }
  { intros k s Hk. now apply elem_of_map_to_list. }
  rewrite (bind_ok _ _ _ _ _ Hrun). simpl.
  intros t s Hts.
  destruct (__sessions w !! t) as [s0|] eqn:Hlook.
  - destruct (decide (_Session.user s0 = _Session.user session)) as [Hu|Hu].
    + rewrite (Hgone t s0) in Hts; [discriminate| |exact Hu].
      now apply elem_of_map_to_list.
    + rewrite Hkept, Hlook in Hts.
      * injection Hts as <-. exact (Hvalid _ _ Hlook).
      * intros s' Hs'. apply elem_of_map_to_list in Hs'.
        rewrite Hlook in Hs'. now injection Hs' as <-.
  - rewrite Hkept, Hlook in Hts; [discriminate|].
    intros s' Hs'. apply elem_of_map_to_list in Hs'.
    rewrite Hlook in Hs'. discriminate.
Qed.

(** ** More on the methods *)

Lemma strip_empty_of_empty s : s = "" -> PyStr.strip s = "".
Proof. now intros ->. Qed.

Lemma all_space_of_lstrip_empty s :
  PyStr.lstrip s = "" -> PyStr.all_space s = true.
Proof.
  unfold PyStr.all_space. induction s as [|c s IH]; simpl; [reflexivity|].
  destruct (PyStr.isspace c); [exact IH | discriminate].
Qed.

Lemma rstrip_keeps_head c s :
  PyStr.isspace c = false -> PyStr.rstrip (String c s) <> "".
Proof. intros Hc. simpl. now rewrite Hc. Qed.

Lemma lstrip_head s :
  PyStr.lstrip s = ""
  \/ exists c s', PyStr.lstrip s = String c s' /\ PyStr.isspace c = false.
Proof.
  induction s as [|c s IH]; simpl; [now left|].
  destruct (PyStr.isspace c) eqn:Hc; [exact IH|]. right. eauto.
Qed.

(** A string strips to the empty string exactly when it is all
    whitespace. *)
Lemma strip_empty_iff s : PyStr.strip s = "" <-> PyStr.all_space s = true.
Proof.
  split; [|apply strip_all_space].
  unfold PyStr.strip. intros Hs.
  destruct (lstrip_head s) as [Hl | (c & s' & Hl & Hc)].
  - now apply all_space_of_lstrip_empty.
  - rewrite Hl in Hs. now apply rstrip_keeps_head in Hs.
Qed.

(** [login], with its asserts as one test. *)
Lemma login_run_any self user passwd expire w :
  login self user passwd expire w =
    if bool_decide (user = PyStr.strip user) && PyStr.truthy user
       && (0 <=? expire) && __enabled self
    then
      match authorize self user passwd w with
      | (Ok true, w1) =>
          match __make_new_token w1 with
          | (Ok token, w2) =>
              let expire_ts :=
                if expire <=? 0 then 0 else monotonic w2 + expire in
              match new_Session user expire_ts w2 with
              | (Ok session, w3) =>
                  (Ok (Some token),
                   add_events
                     [Log INFO "Logged in user %r (expire_ts=%d)"
                        [Str (_Session.user session);
                         Int (_Session.expire_ts session)]]
                     (set_sessions (<[token := session]> (__sessions w3)) w3))
              | (Raise e, w3) => (Raise e, w3)
              end
          | (Raise e, w2) => (Raise e, w2)
          end
      | (Ok false, w1) => (Ok None, w1)
      | (Raise e, w1) => (Raise e, w1)
      end
    else (Raise (AssertionError ""), w).
Proof.
  destruct (bool_decide (user = PyStr.strip user)) eqn:E1.
  - destruct (PyStr.truthy user) eqn:E2.
    + destruct (0 <=? expire) eqn:E3.
      * destruct (__enabled self) eqn:E4.
        -- apply bool_decide_eq_true in E1. apply truthy_true in E2.
           apply Z.leb_le in E3. simpl. now apply login_run.
        -- unfold login. rewrite !assert_cases, E1, E2, E3, E4. reflexivity.
      * unfold login. rewrite !assert_cases, E1, E2, E3. reflexivity.
    + unfold login. rewrite !assert_cases, E1, E2. reflexivity.
  - unfold login. rewrite assert_cases, E1. reflexivity.
Qed.

Lemma add_events_nil w : add_events [] w = w.
Proof. unfold add_events. destruct w; simpl. now rewrite app_nil_r. Qed.

(** The call to the selected service, spelled out. *)
Lemma authorize_by_service_eq self user passwd internal w :
  authorize_by_service self user passwd internal w =
    let '(sl, service) := select_service self user internal in
    match BaseAuthService.authorize service user passwd with
    | Ok true =>
        (Ok true,
         add_events
           [Authorize sl user passwd;
            Log INFO "Authorized user %r via auth service %r"
              [Str user; Str (BaseAuthService.get_plugin_name service)]] w)
    | Ok false =>
        (Ok false,
         add_events
           [Authorize sl user passwd;
            Log ERROR "Got access denied for user %r from auth service %r"
              [Str user; Str (BaseAuthService.get_plugin_name service)]] w)
    | Raise e => (Raise e, add_events [Authorize sl user passwd] w)
    end.
Proof.
  unfold authorize_by_service.
  destruct (select_service self user internal) as [sl service].
  unfold bind, emit, lift, log, emit, ret.
  destruct (BaseAuthService.authorize service user passwd) as [[|]|e];
    simpl; rewrite ?add_events_app; reflexivity.
Qed.

(** [authorize] only appends to the trace. *)
Lemma authorize_world self user passwd w :
  exists es, (authorize self user passwd w).2 = add_events es w.
Proof.
  rewrite authorize_run.
  assert (Hsvc : forall p internal,
            exists es, (authorize_by_service self user p internal w).2
                       = add_events es w).
  { intros p internal. rewrite authorize_by_service_eq.
    destruct (select_service self user internal) as [sl service].
    destruct (BaseAuthService.authorize service user p) as [[|]|e];
      eexists; reflexivity. }
  destruct (negb _); [exists []; now rewrite add_events_nil|].
  destruct (__internal_service self) as [internal|];
    [|exists []; now rewrite add_events_nil].
  destruct (PyStr.truthy (__totp_secret_path self)); [|apply Hsvc].
  destruct (read_file (__totp_secret_path self)) as [content|e];
    [|exists []; now rewrite add_events_nil].
  destruct (PyStr.truthy (PyStr.strip content)); [|apply Hsvc].
  destruct (totp_verify _ _) as [[|]|e];
    [apply Hsvc | eexists; reflexivity | exists []; now rewrite add_events_nil].
Qed.

(** What a call of [login] can have done, whatever its arguments. *)
Lemma login_outcome self user passwd expire w :
  let out := login self user passwd expire w in
  monotonic out.2 = monotonic w
  /\ (drawn w <= drawn out.2)%nat
  /\ match out.1 with
     | Ok (Some token) =>
         user = PyStr.strip user
         /\ 0 <= expire
         /\ __enabled self = true
         /\ (authorize self user passwd w).1 = Ok true
         /\ __sessions w !! token = None
         /\ (exists k : nat,
               (k < 10)%nat
               /\ token = token_hex (drawn w + k)
               /\ drawn out.2 = (drawn w + S k)%nat)
         /\ _Session.valid
              (_Session.mk user
                 (if expire <=? 0 then 0 else monotonic w + expire)) = true
         /\ __sessions out.2 =
            <[token := _Session.mk user
                         (if expire <=? 0 then 0 else monotonic w + expire)]>
              (__sessions w)
     | _ => __sessions out.2 = __sessions w
     end.
Proof.
  cbv zeta. rewrite login_run_any.
  destruct (bool_decide (user = PyStr.strip user)) eqn:E1;
    [|simpl; repeat split; lia].
  destruct (PyStr.truthy user) eqn:E2; [|simpl; repeat split; lia].
  destruct (0 <=? expire) eqn:E3; [|simpl; repeat split; lia].
  destruct (__enabled self) eqn:E4; [|simpl; repeat split; lia].
  apply bool_decide_eq_true in E1. apply Z.leb_le in E3.
  cbn [andb].
  destruct (authorize_same_state self user passwd w) as (Hs & Hm & Hd).
  destruct (authorize self user passwd w) as [[[|]|e] w1];
    simpl in Hs, Hm, Hd |- *;
    [| split; [exact Hm | split; [lia | exact Hs]]
     | split; [exact Hm | split; [lia | exact Hs]]].
  pose proof (make_new_token_loop_spec 10 w1) as Htok. cbv zeta in Htok.
  unfold __make_new_token.
  destruct (make_new_token_loop 10 w1) as [[token|e] w2]; simpl in Htok.
  - destruct Htok as (Hs2 & Hm2 & _ & k & Hk & Htoken & Hd2 & Hnone & _).
    pose proof (new_Session_outcome user
                  (if expire <=? 0 then 0 else monotonic w2 + expire) w2)
      as Hnew.
    destruct (new_Session user _ w2) as [[session|e] w3].
    + destruct Hnew as (-> & -> & Hvalid). simpl.
      rewrite Hm2, Hm in Hvalid |- *. rewrite Hs2, Hs. rewrite Hs in Hnone.
      split; [reflexivity|]. split; [lia|].
      split; [exact E1|]. split; [exact E3|]. split; [reflexivity|].
      split; [reflexivity|]. split; [exact Hnone|].
      split; [exists k; rewrite <- Hd; auto|].
      split; [exact Hvalid | reflexivity].
    + subst w3. simpl. split; [now rewrite Hm2|]. split; [lia|].
      now rewrite Hs2.
  - destruct Htok as (Hs2 & Hm2 & _ & _ & Hd2 & _). simpl.
    split; [now rewrite Hm2|]. split; [lia|]. now rewrite Hs2.
Qed.

(** [check], with its steps as one case analysis. *)
Lemma check_run_any self token w :
  check self token w =
    if __enabled self then
      match __sessions w !! token with
      | Some session =>
          if (_Session.expire_ts session <=? 0)
             || (monotonic w <? _Session.expire_ts session)
          then
            if PyStr.truthy (_Session.user session)
            then (Ok (Some (_Session.user session)), w)
            else (Raise (AssertionError ""), w)
          else (Ok None, set_sessions (delete token (__sessions w)) w)
      | None => (Ok None, w)
      end
    else (Raise (AssertionError ""), w).
Proof.
  unfold check. rewrite assert_cases.
  destruct (__enabled self); [|reflexivity].
  rewrite (bind_ok get_sessions _ w (__sessions w) w eq_refl).
  destruct (__sessions w !! token) as [session|] eqn:Hlook; [|reflexivity].
  destruct (_Session.expire_ts session <=? 0); simpl.
  - rewrite assert_cases. now destruct (PyStr.truthy _).
  - unfold bind at 1, __get_now_ts.
    destruct (monotonic w <? _Session.expire_ts session).
    + rewrite assert_cases. now destruct (PyStr.truthy _).
    + unfold bind, delitem. now rewrite Hlook.
Qed.

(** [logout] of a token that is in the table, entry by entry. *)
Lemma logout_lookup self token session w :
  __enabled self = true ->
  __sessions w !! token = Some session ->
  exists w' : World,
    logout self token w = (Ok tt, w')
    /\ (forall t, __sessions w' !! t
                  = unless_of (_Session.user session) (__sessions w !! t))
    /\ monotonic w' = monotonic w
    /\ drawn w' = drawn w.
Proof.
  intros Hon Hlook. unfold logout. rewrite assert_true by done.
  rewrite (bind_ok get_sessions _ w (__sessions w) w eq_refl), Hlook.
  destruct (logout_loop_run (_Session.user session)
              (map_to_list (__sessions w)) 0 w)
    as (m' & Hrun & Hgone & Hkept).
  { apply NoDup_fst_map_to_list. }
  { intros k s Hk. now apply elem_of_map_to_list. }
  rewrite (bind_ok _ _ _ _ _ Hrun). unfold log, emit.
  eexists. split; [reflexivity|]. simpl. split; [|split; reflexivity].
  intros t. unfold unless_of.
  destruct (__sessions w !! t) as [s|] eqn:Ht.
  - case_bool_decide as Hu.
    + apply (Hgone t s); [now apply elem_of_map_to_list | exact Hu].
    + rewrite Hkept; [exact Ht|].
      intros s' Hs'. apply elem_of_map_to_list in Hs'.
      rewrite Ht in Hs'. now injection Hs' as <-.
  - rewrite Hkept; [exact Ht|].
    intros s' Hs'. apply elem_of_map_to_list in Hs'.
    rewrite Ht in Hs'. discriminate.
Qed.

Lemma log_unauth_paths_logs paths w :
  exists es,
    (forall e, In e es -> exists lvl fmt args, e = Log lvl fmt args)
    /\ log_unauth_paths paths w = (Ok tt, add_events es w).
Proof.
  revert w. induction paths as [|p paths IH]; intros w; simpl.
  - exists []. split; [intros e []|]. unfold ret. now rewrite add_events_nil.
  - unfold bind, log, emit.
    destruct (IH (add_events
                    [Log WARNING "Authorization is disabled for API %r"
                       [Str p]] w)) as (es & Hlogs & ->).
    eexists. split; [|now rewrite add_events_app].
    intros e [<-|He]; [eauto | now apply Hlogs].
Qed.

(** [__init__], with its steps as one case analysis. *)
Lemma init_run enabled unauth_paths internal_type internal_kwargs
    force_internal_users external_type external_kwargs totp_secret_path w :
  exists es : list Event,
    (forall e, In e es -> exists lvl fmt args, e = Log lvl fmt args)
    /\ __init__ enabled unauth_paths internal_type internal_kwargs
         force_internal_users external_type external_kwargs
         totp_secret_path w
       = let w1 := add_events es w in
         let built internal external :=
           mkAuthManager enabled (list_to_set unauth_paths) internal
             force_internal_users external totp_secret_path in
         if enabled then
           match get_auth_service_class internal_type internal_kwargs with
           | Raise e => (Raise e, w1)
           | Ok internal =>
               let w2 :=
                 add_events
                   [Log INFO "Using internal auth service %r"
                      [Str (BaseAuthService.get_plugin_name internal)]] w1 in
               if PyStr.truthy external_type then
                 match get_auth_service_class external_type external_kwargs
                 with
                 | Raise e => (Raise e, w2)
                 | Ok external =>
                     (Ok (built (Some internal) (Some external)),
                      set_sessions ∅
                        (add_events
                           [Log INFO "Using external auth service %r"
                              [Str (BaseAuthService.get_plugin_name
                                      external)]]
                           w2))
                 end
               else (Ok (built (Some internal) None), set_sessions ∅ w2)
           end
         else (Ok (built None None), set_sessions ∅ w1).
Proof.
  destruct enabled.
  - unfold __init__; simpl.
    rewrite (bind_ok (ret tt) _ w tt w eq_refl).
    destruct (log_unauth_paths_logs
                (elements (list_to_set unauth_paths : gset string)) w)
      as (es & Hlogs & Hes).
    exists es. split; [exact Hlogs|]. rewrite (bind_ok _ _ _ _ _ Hes).
    unfold bind, lift, log, emit, ret, new_sessions.
    destruct (get_auth_service_class internal_type internal_kwargs)
      as [internal|e]; [|reflexivity].
    destruct (PyStr.truthy external_type); [|reflexivity].
    destruct (get_auth_service_class external_type external_kwargs)
      as [external|e]; reflexivity.
  - unfold __init__; simpl.
    unfold bind at 1, log, emit.
    destruct (log_unauth_paths_logs
                (elements (list_to_set unauth_paths : gset string))
                (add_events [Log WARNING "AUTHORIZATION IS DISABLED" []] w))
      as (es & Hlogs & Hes).
    rewrite (bind_ok _ _ _ _ _ Hes).
    eexists. split; [|unfold bind, ret, new_sessions;
                      now rewrite add_events_app].
    intros e [<-|He]; [eauto | now apply Hlogs].
Qed.

(** ** The dataclass and the constructor *)

(** X1. [_Session(user, expire_ts)] is accepted exactly when [user] has a
    character that is not whitespace and [expire_ts] is not negative, and
    then holds these two values; otherwise [__post_init__] fails an
    assertion. The second assertion, [assert self.user], never decides. *)
Theorem new_Session_accepts_iff (user : string) (expire_ts : Z) (w : World) :
  new_Session user expire_ts w =
    if negb (PyStr.all_space user) && (0 <=? expire_ts)
    then (Ok (_Session.mk user expire_ts), w)
    else (Raise (AssertionError ""), w).
Proof.
  unfold new_Session, bind, assert_, ret, raise.
  destruct (PyStr.all_space user) eqn:Hsp; simpl.
  - apply strip_empty_iff in Hsp. now rewrite Hsp.
  - destruct (PyStr.truthy (PyStr.strip user)) eqn:Hst.
    + destruct (PyStr.truthy user) eqn:Hu.
      * now destruct (0 <=? expire_ts).
      * apply truthy_false in Hu. subst user. discriminate.
    + apply truthy_false, strip_empty_iff in Hst. congruence.
Qed.

(** X2. [__init__] leaves the clock and the token source alone, and what it
    appends to the trace is log records only. When it returns, the session
    table is empty, whatever it held before, and the manager holds the
    arguments it was given, an internal service exactly when it is enabled,
    and an external service exactly when it is enabled and [external_type]
    is not empty, each one the service the registry gave for its type; a
    disabled manager loads no plugin. It raises only when enabled, with the
    error the registry raised for one of the two types, and then the table
    is as it was. *)
Theorem init_outcome (enabled : bool) (unauth_paths : list string)
    (internal_type : string) (internal_kwargs : Kwargs)
    (force_internal_users : list string)
    (external_type : string) (external_kwargs : Kwargs)
    (totp_secret_path : string) (w : World) :
  let out :=
    __init__ enabled unauth_paths internal_type internal_kwargs
      force_internal_users external_type external_kwargs totp_secret_path w in
  monotonic out.2 = monotonic w
  /\ drawn out.2 = drawn w
  /\ (exists es : list Event,
        trace out.2 = (trace w ++ es)%list
        /\ forall e, In e es -> exists lvl fmt args, e = Log lvl fmt args)
  /\ match out.1 with
     | Ok self =>
         __sessions out.2 = ∅
         /\ __enabled self = enabled
         /\ (forall p, p ∈ __unauth_paths self <-> p ∈ unauth_paths)
         /\ __force_internal_users self = force_internal_users
         /\ __totp_secret_path self = totp_secret_path
         /\ match __internal_service self with
            | Some internal =>
                enabled = true
                /\ get_auth_service_class internal_type internal_kwargs
                   = Ok internal
            | None => enabled = false
            end
         /\ match __external_service self with
            | Some external =>
                enabled = true
                /\ external_type <> ""
                /\ get_auth_service_class external_type external_kwargs
                   = Ok external
            | None => enabled = false \/ external_type = ""
            end
     | Raise e =>
         __sessions out.2 = __sessions w
         /\ enabled = true
         /\ (get_auth_service_class internal_type internal_kwargs = Raise e
             \/ (external_type <> ""
                 /\ get_auth_service_class external_type external_kwargs
                    = Raise e))
     end.
Proof.
  cbv zeta.
  destruct (init_run enabled unauth_paths internal_type internal_kwargs
              force_internal_users external_type external_kwargs
              totp_secret_path w) as (es & Hlogs & ->).
  cbv zeta.
  assert (Hinfo : forall service e,
            In e (es ++ [Log INFO "Using internal auth service %r"
                           [Str (BaseAuthService.get_plugin_name service)]]) ->
            exists lvl fmt args, e = Log lvl fmt args).
  { intros service e [He|[<-|[]]]%in_app_or; [now apply Hlogs | eauto]. }
  destruct enabled.
  - destruct (get_auth_service_class internal_type internal_kwargs)
      as [internal|e] eqn:Hi; simpl.
    + destruct (PyStr.truthy external_type) eqn:Hx.
      * apply truthy_true in Hx.
        destruct (get_auth_service_class external_type external_kwargs)
          as [external|e] eqn:He; simpl.
        -- split; [reflexivity|]. split; [reflexivity|]. split.
           { eexists. rewrite <- !app_assoc. split; [reflexivity|].
             intros e [H1|[<-|[<-|[]]]]%in_app_or;
               [now apply Hlogs | eauto | eauto]. }
           split; [reflexivity|]. split; [reflexivity|].
           split; [intros p; apply elem_of_list_to_set|].
           split; [reflexivity|]. split; [reflexivity|].
           split; [now split | now split].
        -- split; [reflexivity|]. split; [reflexivity|]. split.
           { eexists. rewrite <- !app_assoc. split; [reflexivity|].
             apply Hinfo. }
           split; [reflexivity|]. split; [reflexivity|]. right. now split.
      * apply truthy_false in Hx. simpl.
        split; [reflexivity|]. split; [reflexivity|]. split.
        { eexists. rewrite <- !app_assoc. split; [reflexivity|].
          apply Hinfo. }
        split; [reflexivity|]. split; [reflexivity|].
        split; [intros p; apply elem_of_list_to_set|].
        split; [reflexivity|]. split; [reflexivity|].
        split; [now split | now right].
    + split; [reflexivity|]. split; [reflexivity|]. split.
      { exists es. split; [reflexivity | exact Hlogs]. }
      split; [reflexivity|]. split; [reflexivity|]. now left.
  - simpl. split; [reflexivity|]. split; [reflexivity|]. split.
    { exists es. split; [reflexivity | exact Hlogs]. }
    split; [reflexivity|]. split; [reflexivity|].
    split; [intros p; apply elem_of_list_to_set|].
    split; [reflexivity|]. split; [reflexivity|].
    split; [reflexivity | now left].
Qed.

(** X3. On a manager [__init__] has built, [is_auth_required] answers from
    the arguments of [__init__]: it is true exactly when [enabled] was
    true, the handler requires authorization and its path is not in the
    list [unauth_paths]; the order and the repetitions of the list do not
    matter. *)
Theorem constructed_gate_follows_path_list (enabled : bool)
    (unauth_paths : list string)
    (internal_type : string) (internal_kwargs : Kwargs)
    (force_internal_users : list string)
    (external_type : string) (external_kwargs : Kwargs)
    (totp_secret_path : string) (w w1 : World) (self : AuthManager)
    (exposed : HttpExposed.t) (w' : World) :
  __init__ enabled unauth_paths internal_type internal_kwargs
    force_internal_users external_type external_kwargs totp_secret_path w
  = (Ok self, w1) ->
  is_auth_required self exposed w'
  = (Ok (enabled
         && HttpExposed.auth_required exposed
         && negb (bool_decide (HttpExposed.path exposed ∈ unauth_paths))),
     w').
Proof.
  intros Hinit.
  assert (Hfields : __enabled self = enabled
                    /\ __unauth_paths self = list_to_set unauth_paths).
  { destruct (init_run enabled unauth_paths internal_type internal_kwargs
                force_internal_users external_type external_kwargs
                totp_secret_path w) as (es & _ & Hrun).
    rewrite Hrun in Hinit. cbv zeta in Hinit. destruct enabled.
    - destruct (get_auth_service_class internal_type internal_kwargs);
        [|discriminate].
      destruct (PyStr.truthy external_type).
      + destruct (get_auth_service_class external_type external_kwargs);
          [|discriminate].
        injection Hinit as <- _. now split.
      + injection Hinit as <- _. now split.
    - injection Hinit as <- _. now split. }
  destruct Hfields as [Hen Hpaths].
  unfold is_auth_required, is_auth_enabled, bind, ret.
  rewrite Hen, Hpaths. f_equal. f_equal. f_equal.
  rewrite bool_decide_not. f_equal.
  apply bool_decide_ext. apply elem_of_list_to_set.
Qed.

(** ** More on credential verification *)

Lemma slices_of_short_password passwd :
  (String.length passwd <= 6)%nat ->
  PyStr.slice_from passwd (-6) = passwd /\ PyStr.slice_to passwd (-6) = "".
Proof.
  intros Hlen. unfold PyStr.slice_from, PyStr.slice_to, PyStr.bound, PyStr.len.
  change (-6 <? 0) with true. cbv iota.
  replace (Z.to_nat (Z.max (Z.of_nat (String.length passwd) + -6) 0))
    with 0%nat by lia.
  rewrite Nat.sub_0_r, substring_whole. split; [reflexivity|].
  now destruct passwd.
Qed.

(** The records and calls a run of [authorize_by_service] leaves. *)
Lemma by_service_trail self user p internal w :
  __internal_service self = Some internal ->
  let out := authorize_by_service self user p internal w in
  let es := new_events w out.2 in
  match out.1 with
  | Ok true =>
      exists sl service,
        service_in self sl = Some service
        /\ BaseAuthService.authorize service user p = Ok true
        /\ es = [Authorize sl user p;
                 Log INFO "Authorized user %r via auth service %r"
                   [Str user; Str (BaseAuthService.get_plugin_name service)]]
  | Ok false =>
      exists sl service,
        service_in self sl = Some service
        /\ BaseAuthService.authorize service user p = Ok false
        /\ es = [Authorize sl user p;
                 Log ERROR
                   "Got access denied for user %r from auth service %r"
                   [Str user; Str (BaseAuthService.get_plugin_name service)]]
  | Raise e => forall lvl fmt args, ~ In (Log lvl fmt args) es
  end.
Proof.
  intros Hint. cbv zeta. rewrite authorize_by_service_eq.
  pose proof (select_service_spec self user internal Hint) as Hsel.
  destruct (select_service self user internal) as [sl service].
  destruct Hsel as (_ & _ & Hin).
  destruct (BaseAuthService.authorize service user p) as [[|]|e] eqn:Hans;
    simpl; rewrite new_events_add.
  - exists sl, service. auto.
  - exists sl, service. auto.
  - intros lvl fmt args [Heq|[]]. discriminate.
Qed.

(** X4. Whatever it is called with, [authorize] leaves the session table,
    the clock and the token source alone: it appends events to the trace,
    and among them at most one call to an auth service. *)
Theorem authorize_only_appends (self : AuthManager) (user passwd : string)
    (w : World) :
  exists es : list Event,
    (authorize self user passwd w).2 = add_events es w
    /\ (length (service_calls es) <= 1)%nat.
Proof.
  destruct (authorize_world self user passwd w) as [es Hes].
  exists es. split; [exact Hes|].
  destruct (authorize_cases self user passwd w)
    as [(Hnone & _) | (internal & p & _ & Hrun)].
  - rewrite Hes, new_events_add in Hnone. rewrite Hnone. simpl. lia.
  - unfold verified_with in Hrun.
    destruct (select_service self user internal) as [sl service].
    destruct Hrun as (_ & Hcalls & _).
    rewrite Hes, new_events_add in Hcalls. rewrite Hcalls. simpl. lia.
Qed.

(** X5. With the preconditions of [authorize] met, an error of a
    collaborator leaves [authorize] as it is, never as a denial: an error
    of reading the secret file or of the TOTP check is raised before any
    service is called and before anything is logged; and whenever the
    service is reached, without a secret or with a secret and an accepted
    code, an error of the selected service is raised right after the call,
    without a log record. *)
Theorem authorize_propagates_failures (self : AuthManager)
    (user passwd : string) (internal : BaseAuthService.t) (e : exn)
    (w : World) :
  user = PyStr.strip user ->
  user <> "" ->
  __enabled self = true ->
  __internal_service self = Some internal ->
  let out := authorize self user passwd w in
  (__totp_secret_path self <> "" ->
   read_file (__totp_secret_path self) = Raise e ->
   out = (Raise e, w))
  /\ (forall content,
        __totp_secret_path self <> "" ->
        read_file (__totp_secret_path self) = Ok content ->
        PyStr.strip content <> "" ->
        totp_verify (PyStr.strip content) (PyStr.slice_from passwd (-6))
        = Raise e ->
        out = (Raise e, w))
  /\ (forall secret,
        configured_secret self secret ->
        secret = ""
        \/ totp_verify secret (PyStr.slice_from passwd (-6)) = Ok true ->
        let p :=
          if PyStr.truthy secret then PyStr.slice_to passwd (-6)
          else passwd in
        let '(sl, service) := select_service self user internal in
        BaseAuthService.authorize service user p = Raise e ->
        out = (Raise e, add_events [Authorize sl user p] w)).
Proof.
  intros Hstrip Hne Hon Hint. cbv zeta. split; [|split].
  - rewrite authorize_run, (preconditions_hold _ _ Hstrip Hne Hon), Hint.
    intros Hpath%truthy_true Hread. now rewrite Hpath, Hread.
  - rewrite authorize_run, (preconditions_hold _ _ Hstrip Hne Hon), Hint.
    intros content Hpath%truthy_true Hread Hsec%truthy_true Htotp.
    now rewrite Hpath, Hread, Hsec, Htotp.
  - intros secret Hsecret Hgate.
    rewrite (authorize_reaches_service self user passwd secret internal w
               Hstrip Hne Hon Hint Hsecret Hgate).
    rewrite authorize_by_service_eq.
    destruct (select_service self user internal) as [sl service].
    now intros ->.
Qed.

(** X6. Every decision of [authorize] leaves exactly one log record, the
    last event of the run: a grant is the INFO record naming the service,
    after the one call to that service; a denial is the ERROR record of the
    TOTP check, with no service called, or the ERROR record naming the
    service that refused. A run that raises logs nothing. *)
Theorem authorize_audit_trail (self : AuthManager) (user passwd : string)
    (w : World) :
  let out := authorize self user passwd w in
  let es := new_events w out.2 in
  match out.1 with
  | Ok true =>
      exists sl p service,
        service_in self sl = Some service
        /\ BaseAuthService.authorize service user p = Ok true
        /\ es = [Authorize sl user p;
                 Log INFO "Authorized user %r via auth service %r"
                   [Str user; Str (BaseAuthService.get_plugin_name service)]]
  | Ok false =>
      es = [Log ERROR "Got access denied for user %r by TOTP" [Str user]]
      \/ exists sl p service,
           service_in self sl = Some service
           /\ BaseAuthService.authorize service user p = Ok false
           /\ es = [Authorize sl user p;
                    Log ERROR
                      "Got access denied for user %r from auth service %r"
                      [Str user;
                       Str (BaseAuthService.get_plugin_name service)]]
  | Raise e => forall lvl fmt args, ~ In (Log lvl fmt args) es
  end.
Proof.
  cbv zeta. rewrite authorize_run.
  assert (Hsvc : forall p internal,
            __internal_service self = Some internal ->
            match (authorize_by_service self user p internal w).1 with
            | Ok true =>
                exists sl p0 service,
                  service_in self sl = Some service
                  /\ BaseAuthService.authorize service user p0 = Ok true
                  /\ new_events w (authorize_by_service self user p internal w).2
                     = [Authorize sl user p0;
                        Log INFO "Authorized user %r via auth service %r"
                          [Str user;
                           Str (BaseAuthService.get_plugin_name service)]]
            | Ok false =>
                new_events w (authorize_by_service self user p internal w).2
                = [Log ERROR "Got access denied for user %r by TOTP"
                     [Str user]]
                \/ exists sl p0 service,
                     service_in self sl = Some service
                     /\ BaseAuthService.authorize service user p0 = Ok false
                     /\ new_events w
                          (authorize_by_service self user p internal w).2
                        = [Authorize sl user p0;
                           Log ERROR
                             "Got access denied for user %r from auth service %r"
                             [Str user;
                              Str (BaseAuthService.get_plugin_name service)]]
            | Raise e =>
                forall lvl fmt args,
                  ~ In (Log lvl fmt args)
                      (new_events w
                         (authorize_by_service self user p internal w).2)
            end).
  { intros p internal Hint.
    pose proof (by_service_trail self user p internal w Hint) as H.
    cbv zeta in H.
    destruct (authorize_by_service self user p internal w).1 as [[|]|e].
    - destruct H as (sl & service & H). exists sl, p, service. exact H.
    - right. destruct H as (sl & service & H). exists sl, p, service. exact H.
    - exact H. }
  destruct (negb _);
    [simpl; rewrite new_events_refl; intros lvl fmt args []|].
  destruct (__internal_service self) as [internal|] eqn:Hint;
    [|simpl; rewrite new_events_refl; intros lvl fmt args []].
  destruct (PyStr.truthy (__totp_secret_path self)); [|now apply Hsvc].
  destruct (read_file (__totp_secret_path self)) as [content|e];
    [|simpl; rewrite new_events_refl; intros lvl fmt args []].
  destruct (PyStr.truthy (PyStr.strip content)); [|now apply Hsvc].
  destruct (totp_verify _ _) as [[|]|e].
  - now apply Hsvc.
  - simpl. rewrite new_events_add. now left.
  - simpl. rewrite new_events_refl. intros lvl fmt args [].
Qed.

(** X7. With a TOTP secret configured, a password of at most six
    characters is all code and no core: the TOTP check sees the whole
    password, and when the check accepts it the selected service is asked
    about the empty password. *)
Theorem short_password_is_all_code (self : AuthManager)
    (user passwd secret : string) (internal : BaseAuthService.t)
    (w : World) :
  user = PyStr.strip user ->
  user <> "" ->
  __enabled self = true ->
  __internal_service self = Some internal ->
  configured_secret self secret ->
  secret <> "" ->
  (String.length passwd <= 6)%nat ->
  let out := authorize self user passwd w in
  match totp_verify secret passwd with
  | Ok true => verified_with self user "" internal w out
  | Ok false =>
      out = (Ok false,
             add_events
               [Log ERROR "Got access denied for user %r by TOTP" [Str user]]
               w)
  | Raise e => out = (Raise e, w)
  end.
Proof.
  intros Hstrip Hne Hon Hint Hsecret Hfull Hlen. cbv zeta.
  destruct (slices_of_short_password passwd Hlen) as [Hcode Hcore].
  rewrite authorize_run, (preconditions_hold _ _ Hstrip Hne Hon), Hint.
  unfold configured_secret in Hsecret.
  destruct (PyStr.truthy (__totp_secret_path self)); [|contradiction].
  destruct Hsecret as (content & -> & ->).
  apply truthy_true in Hfull. rewrite Hfull, Hcode, Hcore.
  destruct (totp_verify (PyStr.strip content) passwd) as [[|]|e];
    [apply authorize_by_service_run | reflexivity | reflexivity].
Qed.

(** ** More on the session life cycle *)

(** X8. Whatever it is called with, [login] changes the table in one way
    only: when it returns a token. It does so only after [authorize]
    returned [True]; the token was not a key of the table, so no session
    is overwritten; the token is bound to a session of [user]; and every
    other entry is as it was. When [login] returns [None] or raises, the
    table is as it was. *)
Theorem login_changes_at_most_one_entry (self : AuthManager)
    (user passwd : string) (expire : Z) (w : World) :
  let out := login self user passwd expire w in
  match out.1 with
  | Ok (Some token) =>
      (authorize self user passwd w).1 = Ok true
      /\ __sessions w !! token = None
      /\ (exists session,
            __sessions out.2 !! token = Some session
            /\ _Session.user session = user
            /\ _Session.expire_ts session
               = (if expire <=? 0 then 0 else monotonic w + expire))
      /\ forall t, t <> token -> __sessions out.2 !! t = __sessions w !! t
  | _ => __sessions out.2 = __sessions w
  end.
Proof.
  pose proof (login_outcome self user passwd expire w) as H.
  cbv zeta in H |- *. destruct H as (_ & _ & H).
  destruct (login self user passwd expire w).1 as [[token|]|e];
    [|exact H|exact H].
  destruct H as (_ & _ & _ & Hauth & Hnone & _ & _ & Htable).
  split; [exact Hauth|]. split; [exact Hnone|]. rewrite Htable. split.
  - eexists. split; [apply lookup_insert_eq|]. now split.
  - intros t Ht. now apply lookup_insert_ne.
Qed.

(** X9. [login] with a user that is not stripped, an empty user, a
    negative [expire] or a disabled manager fails an assertion before
    [authorize] is called: nothing is logged, no service is asked, the
    world is as it was. *)
Theorem login_rejects_bad_arguments (self : AuthManager)
    (user passwd : string) (expire : Z) (w : World) :
  user <> PyStr.strip user \/ user = "" \/ expire < 0
  \/ __enabled self = false ->
  login self user passwd expire w = (Raise (AssertionError ""), w).
Proof.
  intros Hbad. rewrite login_run_any.
  destruct (bool_decide (user = PyStr.strip user)) eqn:E1; [|reflexivity].
  destruct (PyStr.truthy user) eqn:E2; [|reflexivity].
  destruct (0 <=? expire) eqn:E3; [|reflexivity].
  destruct (__enabled self) eqn:E4; [|reflexivity].
  apply bool_decide_eq_true in E1. apply truthy_true in E2.
  apply Z.leb_le in E3.
  destruct Hbad as [H|[H|[H|H]]];
    [contradiction | contradiction | lia | discriminate].
Qed.

(** X10. The life of a session. After a [login] that returned a token, at
    a clock that was not negative, a [check] of the token at time [now]
    returns the user when [expire] was 0, whatever the time, and when
    [now] is before the login time plus [expire]; from that time on it
    returns [None] and evicts the entry, which leaves the table as it was
    before the login. *)
Theorem login_then_check_later (self : AuthManager) (user passwd : string)
    (expire : Z) (token : string) (now : Z) (w : World) :
  (login self user passwd expire w).1 = Ok (Some token) ->
  0 <= monotonic w ->
  let w1 := set_monotonic now (login self user passwd expire w).2 in
  if (expire =? 0) || (now <? monotonic w + expire)
  then check self token w1 = (Ok (Some user), w1)
  else check self token w1
       = (Ok None, set_sessions (delete token (__sessions w1)) w1)
       /\ delete token (__sessions w1) = __sessions w.
Proof.
  intros Hlogin Hclock.
  pose proof (login_outcome self user passwd expire w) as H.
  cbv zeta in H |- *. destruct H as (_ & _ & H). rewrite Hlogin in H.
  destruct H as (_ & Hexp & Hon & _ & Hnone & _ & Hvalid & Htable).
  set (ets := if expire <=? 0 then 0 else monotonic w + expire) in *.
  rewrite (check_present self token (_Session.mk user ets));
    [| exact Hon | simpl; rewrite Htable; apply lookup_insert_eq
     | exact Hvalid].
  simpl.
  assert (Hsame : (ets =? 0) || (now <? ets)
                  = (expire =? 0) || (now <? monotonic w + expire)).
  { unfold ets. destruct (Z.leb_spec expire 0) as [Hle|Hgt].
    - assert (expire = 0) as -> by lia. reflexivity.
    - destruct (Z.eqb_spec (monotonic w + expire) 0); [lia|].
      destruct (Z.eqb_spec expire 0); [lia|]. reflexivity. }
  rewrite Hsame.
  destruct ((expire =? 0) || (now <? monotonic w + expire));
    [reflexivity|].
  split; [reflexivity|].
  rewrite Htable, delete_insert_eq. now apply delete_id.
Qed.

(** X11. Two logins, of the same user or of two, one after the other: the
    tokens they return differ, and after the second login each token is
    bound to a session of its user. *)
Theorem two_logins_coexist (self : AuthManager)
    (user1 passwd1 : string) (expire1 : Z)
    (user2 passwd2 : string) (expire2 : Z)
    (token1 token2 : string) (now : Z) (w : World) :
  let out1 := login self user1 passwd1 expire1 w in
  let out2 :=
    login self user2 passwd2 expire2 (set_monotonic now out1.2) in
  out1.1 = Ok (Some token1) ->
  out2.1 = Ok (Some token2) ->
  token1 <> token2
  /\ (exists s1, __sessions out2.2 !! token1 = Some s1
                 /\ _Session.user s1 = user1)
  /\ (exists s2, __sessions out2.2 !! token2 = Some s2
                 /\ _Session.user s2 = user2).
Proof.
  cbv zeta. intros H1 H2.
  pose proof (login_outcome self user1 passwd1 expire1 w) as L1.
  pose proof (login_outcome self user2 passwd2 expire2
                (set_monotonic now (login self user1 passwd1 expire1 w).2))
    as L2.
  cbv zeta in L1, L2. destruct L1 as (_ & _ & L1). destruct L2 as (_ & _ & L2).
  rewrite H1 in L1. rewrite H2 in L2.
  destruct L1 as (_ & _ & _ & _ & _ & _ & _ & T1).
  destruct L2 as (_ & _ & _ & _ & Hnone & _ & _ & T2).
  simpl in Hnone, T2. rewrite T1 in Hnone, T2.
  assert (Hne : token1 <> token2).
  { intros ->. rewrite lookup_insert_eq in Hnone. discriminate. }
  split; [exact Hne|]. rewrite T2. split.
  - eexists. rewrite lookup_insert_ne by congruence.
    rewrite lookup_insert_eq. now split.
  - eexists. rewrite lookup_insert_eq. now split.
Qed.

(** X12. [login] then [logout] with the token it returned: [logout]
    returns normally and leaves the table as it was before the login, less
    the sessions the user had then; when the user had none, the table is
    the one before the login. *)
Theorem login_logout_round_trip (self : AuthManager) (user passwd : string)
    (expire : Z) (token : string) (w : World) :
  let out := login self user passwd expire w in
  out.1 = Ok (Some token) ->
  exists w' : World,
    logout self token out.2 = (Ok tt, w')
    /\ (forall t, __sessions w' !! t = unless_of user (__sessions w !! t))
    /\ ((forall t s, __sessions w !! t = Some s -> _Session.user s <> user) ->
        __sessions w' = __sessions w).
Proof.
  cbv zeta. intros Hlogin.
  pose proof (login_outcome self user passwd expire w) as H.
  cbv zeta in H. destruct H as (_ & _ & H). rewrite Hlogin in H.
  destruct H as (_ & _ & Hon & _ & Hnone & _ & _ & Htable).
  set (ets := if expire <=? 0 then 0 else monotonic w + expire) in *.
  destruct (logout_lookup self token (_Session.mk user ets)
              (login self user passwd expire w).2 Hon)
    as (w' & Hrun & Hlook & _).
  { rewrite Htable. apply lookup_insert_eq. }
  assert (Hall : forall t,
            __sessions w' !! t = unless_of user (__sessions w !! t)).
  { intros t. rewrite Hlook, Htable. simpl.
    destruct (decide (t = token)) as [->|Ht].
    - rewrite lookup_insert_eq, Hnone. simpl.
      now rewrite bool_decide_eq_true_2.
    - now rewrite lookup_insert_ne by congruence. }
  exists w'. split; [exact Hrun|]. split; [exact Hall|].
  intros Hfirst. apply map_eq. intros t. rewrite Hall.
  destruct (__sessions w !! t) as [s|] eqn:Ht; [|reflexivity].
  simpl. rewrite bool_decide_eq_false_2; [reflexivity|].
  now apply (Hfirst t).
Qed.

Lemma logout_absent self token w :
  __enabled self = true ->
  __sessions w !! token = None ->
  logout self token w = (Ok tt, w).
Proof.
  intros Hon Hnone. unfold logout. rewrite assert_true by done.
  rewrite (bind_ok get_sessions _ w (__sessions w) w eq_refl).
  now rewrite Hnone.
Qed.

(** [logout] puts nothing into the table and leaves the clock and the
    token source alone, whatever it is called with. *)
Lemma logout_shrinks self token w :
  (forall t s, __sessions (logout self token w).2 !! t = Some s ->
               __sessions w !! t = Some s)
  /\ monotonic (logout self token w).2 = monotonic w
  /\ drawn (logout self token w).2 = drawn w.
Proof.
  destruct (__enabled self) eqn:Hon.
  - destruct (__sessions w !! token) as [session|] eqn:Hlook.
    + destruct (logout_lookup self token session w Hon Hlook)
        as (w' & -> & Hall & Hm & Hd). simpl.
      split; [|now split]. intros t s. rewrite Hall. unfold unless_of.
      destruct (__sessions w !! t) as [s0|]; [|discriminate].
      now case_bool_decide.
    + rewrite (logout_absent self token w Hon Hlook). now repeat split.
  - unfold logout. rewrite assert_false by done. now repeat split.
Qed.

(** [check] puts nothing into the table and leaves the clock, the token
    source and the trace alone, whatever it is called with. *)
Lemma check_shrinks self token w :
  (forall t s, __sessions (check self token w).2 !! t = Some s ->
               __sessions w !! t = Some s)
  /\ monotonic (check self token w).2 = monotonic w
  /\ drawn (check self token w).2 = drawn w
  /\ trace (check self token w).2 = trace w.
Proof.
  rewrite check_run_any.
  destruct (__enabled self); [|now repeat split].
  destruct (__sessions w !! token) as [session|]; [|now repeat split].
  destruct (_ || _).
  - now destruct (PyStr.truthy _).
  - simpl. split; [|now repeat split].
    intros t s Hts. now apply lookup_delete_Some in Hts as [_ Hts].
Qed.

Lemma cleanup_same_state self w : same_state w (cleanup self w).2.
Proof.
  unfold cleanup.
  destruct (__enabled self); [|apply same_state_refl].
  destruct (__internal_service self) as [internal|];
    [|apply same_state_refl].
  unfold assert_some, bind, ret, call_cleanup, bind, emit, lift.
  destruct (BaseAuthService.cleanup internal) as [[]|e]; simpl;
    [|apply same_state_add].
  destruct (__external_service self) as [external|]; simpl;
    [|apply same_state_add].
  now destruct (BaseAuthService.cleanup external) as [[]|e].
Qed.

(** One call keeps the invariant of the sessions and the origin of the
    keys. *)
Lemma perform_keeps self c w :
  valid_table (__sessions w) -> keys_drawn w ->
  valid_table (__sessions (perform self c w))
  /\ keys_drawn (perform self c w).
Proof.
  intros Hvalid Hkeys.
  assert (Hshrink : forall w' : World,
            (forall t s, __sessions w' !! t = Some s ->
                         __sessions w !! t = Some s) ->
            drawn w' = drawn w ->
            valid_table (__sessions w') /\ keys_drawn w').
  { intros w' Hsub Hd. split.
    - intros t s Hts. apply (Hvalid t s). now apply Hsub.
    - intros t [s Hts]. rewrite Hd. apply Hkeys. exists s. now apply Hsub. }
  destruct c as [user passwd|user passwd expire|token|token| |time]; simpl.
  - destruct (authorize_same_state self user passwd w) as (Hs & _ & Hd).
    apply Hshrink; [|exact Hd]. intros t s. now rewrite Hs.
  - split; [now apply login_keeps_valid|].
    pose proof (login_outcome self user passwd expire w) as H.
    cbv zeta in H. destruct H as (_ & Hd & H).
    assert (Hsame : __sessions (login self user passwd expire w).2
                    = __sessions w -> keys_drawn
                        (login self user passwd expire w).2).
    { intros Hs t Ht. rewrite Hs in Ht.
      destruct (Hkeys t Ht) as (i & Hi & ->). exists i. split; [lia|done]. }
    destruct (login self user passwd expire w).1 as [[token|]|e];
      [|exact (Hsame H)|exact (Hsame H)].
    destruct H as (_ & _ & _ & _ & _ & (k & _ & Htok & Hdk) & _ & Htable).
    intros t Ht. rewrite Htable in Ht.
    destruct (decide (t = token)) as [->|Hne].
    + exists (drawn w + k)%nat. split; [lia | exact Htok].
    + rewrite lookup_insert_ne in Ht by congruence.
      destruct (Hkeys t Ht) as (i & Hi & ->). exists i. split; [lia|done].
  - destruct (check_shrinks self token w) as (Hsub & _ & Hd & _).
    now apply Hshrink.
  - destruct (logout_shrinks self token w) as (Hsub & _ & Hd).
    now apply Hshrink.
  - destruct (cleanup_same_state self w) as (Hs & _ & Hd).
    apply Hshrink; [|exact Hd]. intros t s. now rewrite Hs.
  - apply (Hshrink (set_monotonic time w)); [intros t s Hts; exact Hts|].
    reflexivity.
Qed.

Lemma perform_all_keeps self cs : forall w,
  valid_table (__sessions w) -> keys_drawn w ->
  valid_table (__sessions (perform_all self cs w))
  /\ keys_drawn (perform_all self cs w).
Proof.
  induction cs as [|c cs IH]; intros w Hvalid Hkeys; simpl; [now split|].
  destruct (perform_keeps self c w Hvalid Hkeys) as [Hv Hk].
  now apply IH.
Qed.

(** X13. [check] returns a user only for a token that is in the table, and
    then the user of that very session, not empty, whose [expire_ts] is 0
    or ahead of the clock; the manager is enabled and the world is left as
    it was. No assumption on the table is needed. *)
Theorem check_sound (self : AuthManager) (token user : string) (w : World) :
  (check self token w).1 = Ok (Some user) ->
  __enabled self = true
  /\ user <> ""
  /\ (exists session,
        __sessions w !! token = Some session
        /\ _Session.user session = user
        /\ (_Session.expire_ts session <= 0
            \/ monotonic w < _Session.expire_ts session))
  /\ (check self token w).2 = w.
Proof.
  rewrite check_run_any.
  destruct (__enabled self); [|discriminate].
  destruct (__sessions w !! token) as [session|]; [|discriminate].
  destruct (_ || _) eqn:Hlive; [|discriminate].
  destruct (PyStr.truthy (_Session.user session)) eqn:Hu; [|discriminate].
  simpl. intros [= <-]. split; [reflexivity|].
  split; [now apply truthy_true|]. split; [|reflexivity].
  exists session. split; [reflexivity|]. split; [reflexivity|].
  apply orb_true_iff in Hlive as [H|H]; [left|right]; lia.
Qed.

(** X14. Whatever it is called with, [check] logs nothing, draws no token
    and puts nothing into the table; the one change it can make is to
    delete the entry of the token it was given, and it does so only when
    that session has a positive [expire_ts] that the clock has reached,
    returning [None]. *)
Theorem check_table_effect (self : AuthManager) (token : string) (w : World) :
  let out := check self token w in
  out.2 = w
  \/ (out = (Ok None, set_sessions (delete token (__sessions w)) w)
      /\ exists session,
           __sessions w !! token = Some session
           /\ 0 < _Session.expire_ts session <= monotonic w).
Proof.
  cbv zeta. rewrite check_run_any.
  destruct (__enabled self); [|now left].
  destruct (__sessions w !! token) as [session|]; [|now left].
  destruct (_ || _) eqn:Hlive.
  - left. now destruct (PyStr.truthy _).
  - right. split; [reflexivity|]. exists session. split; [reflexivity|].
    apply orb_false_iff in Hlive as [H1 H2]. lia.
Qed.

(** X15. On an enabled manager a second [logout] of the same token is a
    no-op: it returns normally and changes nothing, whether the first one
    found the token or not. *)
Theorem logout_twice (self : AuthManager) (token : string) (w : World) :
  __enabled self = true ->
  let w1 := (logout self token w).2 in
  (logout self token w).1 = Ok tt
  /\ logout self token w1 = (Ok tt, w1).
Proof.
  intros Hon. cbv zeta.
  destruct (__sessions w !! token) as [session|] eqn:Hlook.
  - destruct (logout_lookup self token session w Hon Hlook)
      as (w' & Hrun & Hall & _).
    rewrite Hrun. simpl. split; [reflexivity|].
    apply logout_absent; [exact Hon|].
    rewrite Hall, Hlook. simpl. now rewrite bool_decide_eq_true_2.
  - rewrite (logout_absent self token w Hon Hlook). simpl.
    split; [reflexivity|]. now apply logout_absent.
Qed.

(** X16. No call of a method, and no move of the clock, breaks the table:
    if every session in it satisfies the invariant of [_Session] and every
    key is a token the source has handed out, the same holds after the
    call, whether it returned or raised. *)
Theorem every_call_keeps_the_table (self : AuthManager) (c : call)
    (w : World) :
  valid_table (__sessions w) ->
  keys_drawn w ->
  valid_table (__sessions (perform self c w))
  /\ keys_drawn (perform self c w).
Proof. apply perform_keeps. Qed.

(** X17. From an empty table, after any sequence of calls with any
    arguments, every session in the table satisfies the invariant of
    [_Session], every key is a token the source has handed out, and on an
    enabled manager [check] of any token returns normally: its assertions
    on [session.user] and its [del] never fail. *)
Theorem reachable_states_are_sound (self : AuthManager) (cs : list call)
    (w0 : World) :
  __sessions w0 = ∅ ->
  let w := perform_all self cs w0 in
  valid_table (__sessions w)
  /\ keys_drawn w
  /\ (__enabled self = true ->
      forall token, exists r, (check self token w).1 = Ok r).
Proof.
  intros Hempty. cbv zeta.
  destruct (perform_all_keeps self cs w0) as [Hvalid Hkeys].
  { rewrite Hempty. apply map_Forall_empty. }
  { intros t [s Hts]. rewrite Hempty, lookup_empty in Hts. discriminate. }
  split; [exact Hvalid|]. split; [exact Hkeys|].
  intros Hon token.
  destruct (__sessions (perform_all self cs w0) !! token) as [session|]
    eqn:Hlook.
  - rewrite (check_present self token session _ Hon Hlook
               (Hvalid _ _ Hlook)).
    destruct (_ || _); eexists; reflexivity.
  - rewrite (check_absent self token _ Hon Hlook). eexists; reflexivity.
Qed.

(** X18. [logout] of one user does not disturb the others: for a token of
    a session of another user, [check] after the logout returns what it
    would have returned before it. *)
Theorem logout_keeps_other_checks (self : AuthManager)
    (token other : string) (session session' : _Session.t) (w : World) :
  __enabled self = true ->
  __sessions w !! token = Some session ->
  __sessions w !! other = Some session' ->
  _Session.user session' <> _Session.user session ->
  (check self other (logout self token w).2).1 = (check self other w).1.
Proof.
  intros Hon Hlook Hother Hu.
  destruct (logout_lookup self token session w Hon Hlook)
    as (w' & -> & Hall & Hm & _). simpl.
  rewrite !check_run_any, Hon, Hall, Hother, Hm. simpl.
  rewrite bool_decide_eq_false_2 by exact Hu.
  destruct (_ || _); [|reflexivity].
  now destruct (PyStr.truthy _).
Qed.

End Manager.

(** ** The properties at work on the demo installation *)

Lemma demo_table_valid : valid_table Demo.table.
Proof.
  unfold valid_table, Demo.table.
  repeat apply map_Forall_insert_2; try reflexivity. apply map_Forall_empty.
Defined.

Lemma demo_secret :
  configured_secret Demo.read_file Demo.with_totp "JBSWY3DPEHPK3PXP".
Proof.
  unfold configured_secret. simpl. eexists. split; reflexivity.
Defined.

(** TOTP configured: a wrong code stops [authorize] before any service is
    called; the right code lets the core password through to the service;
    without a secret the whole password goes to the selected service. *)
Lemma authorize_totp_gate_witness :
  ((authorize Demo.read_file Demo.totp_verify Demo.with_totp
      "alice" "pw1000000" Demo.boot).1 = Ok false
   /\ service_calls
        (new_events Demo.boot
           (authorize Demo.read_file Demo.totp_verify Demo.with_totp
              "alice" "pw1000000" Demo.boot).2) = [])
  /\ verified_with Demo.with_totp "alice" "pw1" Demo.htpasswd Demo.boot
       (authorize Demo.read_file Demo.totp_verify Demo.with_totp
          "alice" "pw1492039" Demo.boot)
  /\ verified_with Demo.plain "alice" "unix" Demo.htpasswd Demo.boot
       (authorize Demo.read_file Demo.totp_verify Demo.plain
          "alice" "unix" Demo.boot).
Proof.
  split; [|split].
  - destruct (authorize_totp_gate Demo.read_file Demo.totp_verify
                Demo.with_totp "alice" "pw1000000" "JBSWY3DPEHPK3PXP"
                Demo.htpasswd Demo.boot eq_refl ltac:(discriminate)
                eq_refl eq_refl demo_secret)
      as (_ & Hdeny & _ & _).
    destruct (Hdeny ltac:(discriminate) eq_refl) as (Hres & Hcalls & _).
    split; [exact Hres | exact Hcalls].
  - destruct (authorize_totp_gate Demo.read_file Demo.totp_verify
                Demo.with_totp "alice" "pw1492039" "JBSWY3DPEHPK3PXP"
                Demo.htpasswd Demo.boot eq_refl ltac:(discriminate)
                eq_refl eq_refl demo_secret)
      as (_ & _ & Hpass & _).
    exact (Hpass ltac:(discriminate) eq_refl).
  - destruct (authorize_totp_gate Demo.read_file Demo.totp_verify
                Demo.plain "alice" "unix" ""
                Demo.htpasswd Demo.boot eq_refl ltac:(discriminate)
                eq_refl eq_refl eq_refl)
      as (_ & _ & _ & Hnone).
    exact (Hnone eq_refl).
Defined.

(** The session of [admin] ends at second 130: at that second [check]
    evicts it, and a later [check] finds nothing. *)
Lemma check_lazy_expiry_witness :
  __enabled Demo.plain = true
  /\ valid_table (__sessions (set_monotonic 130 Demo.busy))
  /\ check Demo.plain "beef" (set_monotonic 130 Demo.busy)
     = (Ok None,
        set_sessions (delete "beef" Demo.table) (set_monotonic 130 Demo.busy))
  /\ check Demo.plain "beef"
       (set_monotonic 500
          (set_sessions (delete "beef" Demo.table)
             (set_monotonic 130 Demo.busy)))
     = (Ok None,
        set_monotonic 500
          (set_sessions (delete "beef" Demo.table)
             (set_monotonic 130 Demo.busy))).
Proof.
  split; [reflexivity|]. split; [exact demo_table_valid|].
  pose proof (check_lazy_expiry Demo.plain "beef"
                (set_monotonic 130 Demo.busy) eq_refl demo_table_valid) as H.
  assert (Hlook : __sessions (set_monotonic 130 Demo.busy) !! "beef"
                  = Some (_Session.mk "admin" 130)) by reflexivity.
  rewrite Hlook in H. simpl in H.
  destruct H as (Hrun & _ & _ & Hagain).
  split; [exact Hrun | exact (Hagain 500)].
Defined.

(** [alice] logs out with one of her two tokens: both are gone, the
    session of [admin] stays. *)
Lemma logout_all_sessions_of_user_witness :
  __enabled Demo.plain = true
  /\ exists w' : World,
       logout Demo.plain "decade" Demo.busy = (Ok tt, w')
       /\ __sessions w' !! "decade" = None
       /\ __sessions w' !! "c0ffee" = None
       /\ check Demo.plain "c0ffee" w' = (Ok None, w')
       /\ __sessions w' !! "beef" = Some (_Session.mk "admin" 130).
Proof.
  split; [reflexivity|].
  pose proof (logout_all_sessions_of_user Demo.plain "decade" Demo.busy
                eq_refl) as H.
  assert (Hlook : __sessions Demo.busy !! "decade"
                  = Some (_Session.mk "alice" 160)) by reflexivity.
  rewrite Hlook in H. simpl in H.
  destruct H as (w' & Hrun & Hgone & Hkept & _).
  exists w'. split; [exact Hrun|].
  split; [exact (proj1 (Hgone "decade" _ eq_refl eq_refl))|].
  split; [exact (proj1 (Hgone "c0ffee" (_Session.mk "alice" 0)
                          eq_refl eq_refl))|].
  split; [exact (proj2 (Hgone "c0ffee" (_Session.mk "alice" 0)
                          eq_refl eq_refl))|].
  apply (Hkept "beef" (_Session.mk "admin" 130) eq_refl). discriminate.
Defined.

Lemma demo_fresh_token : fresh_token_available Demo.token_hex Demo.busy.
Proof. exists 2%nat. split; [lia | reflexivity]. Defined.

(** [alice] logs in for a minute at second 120 while the first two tokens
    of the source are taken. *)
Lemma login_issues_session_witness :
  "alice" = PyStr.strip "alice"
  /\ 0 <= 60
  /\ __enabled Demo.plain = true
  /\ exists token : string,
       (login Demo.token_hex Demo.read_file Demo.totp_verify Demo.plain
          "alice" "unix" 60 Demo.busy).1 = Ok (Some token)
       /\ __sessions Demo.busy !! token = None
       /\ __sessions
            (login Demo.token_hex Demo.read_file Demo.totp_verify Demo.plain
               "alice" "unix" 60 Demo.busy).2
          = <[token := _Session.mk "alice" 180]> (__sessions Demo.busy)
       /\ check Demo.plain token
            (login Demo.token_hex Demo.read_file Demo.totp_verify Demo.plain
               "alice" "unix" 60 Demo.busy).2
          = (Ok (Some "alice"),
             (login Demo.token_hex Demo.read_file Demo.totp_verify Demo.plain
                "alice" "unix" 60 Demo.busy).2).
Proof.
  split; [reflexivity|]. split; [lia|]. split; [reflexivity|].
  exact (login_issues_session Demo.token_hex Demo.read_file Demo.totp_verify
           Demo.plain "alice" "unix" 60 Demo.busy
           eq_refl ltac:(discriminate) ltac:(lia) eq_refl
           ltac:(simpl; lia) demo_fresh_token).
Defined.

(** [admin] is a forced internal user: with the external service [pam]
    configured, the one call goes to the internal service; [alice] is not
    forced, and the one call goes to [pam]. *)
Lemma authorize_service_choice_witness :
  service_calls
    (new_events Demo.boot
       (authorize Demo.read_file Demo.totp_verify Demo.plain
          "admin" "admin" Demo.boot).2)
  = [(Internal, "admin", "admin")]
  /\ service_calls
       (new_events Demo.boot
          (authorize Demo.read_file Demo.totp_verify Demo.plain
             "alice" "unix" Demo.boot).2)
     = [(External, "alice", "unix")]
  /\ (authorize Demo.read_file Demo.totp_verify Demo.plain
        "alice" "unix" Demo.boot).1
     = BaseAuthService.authorize Demo.pam "alice" "unix".
Proof.
  split; [|].
  - destruct (proj2 (authorize_service_choice Demo.read_file Demo.totp_verify
                       Demo.plain "admin" "admin" Demo.boot)
                Demo.htpasswd "" eq_refl ltac:(discriminate) eq_refl eq_refl
                eq_refl (or_introl eq_refl))
      as (sl & service & Hcalls & _ & Hinternal & _).
    assert (Hsl : sl = Internal).
    { apply Hinternal. left. simpl. left. }
    rewrite Hsl in Hcalls. exact Hcalls.
  - destruct (proj2 (authorize_service_choice Demo.read_file Demo.totp_verify
                       Demo.plain "alice" "unix" Demo.boot)
                Demo.htpasswd "" eq_refl ltac:(discriminate) eq_refl eq_refl
                eq_refl (or_introl eq_refl))
      as (sl & service & Hcalls & Hin & _ & Hexternal & Hres).
    assert (Hsl : sl = External).
    { apply Hexternal. split; [|eexists; reflexivity].
      simpl. intros [Heq|Hnil]%elem_of_cons; [discriminate|].
      now apply not_elem_of_nil in Hnil. }
    rewrite Hsl in Hcalls, Hin. simpl in Hin. injection Hin as <-.
    split; [exact Hcalls | exact Hres].
Defined.

(** A secret file of a space, a tab and a newline. *)
Lemma blank_secret_is_no_secret_witness :
  Demo.read_file (__totp_secret_path Demo.with_blank)
  = Ok (String " " (String "009" (String "010" "")))
  /\ PyStr.all_space (String " " (String "009" (String "010" ""))) = true
  /\ authorize Demo.read_file Demo.totp_verify Demo.with_blank
       "alice" "pw1" Demo.boot
     = authorize Demo.read_file Demo.totp_verify
         (without_totp Demo.with_blank) "alice" "pw1" Demo.boot
  /\ verified_with Demo.with_blank "alice" "pw1" Demo.htpasswd Demo.boot
       (authorize Demo.read_file Demo.totp_verify Demo.with_blank
          "alice" "pw1" Demo.boot).
Proof.
  split; [reflexivity|]. split; [reflexivity|].
  exact (proj2 (blank_secret_is_no_secret Demo.read_file Demo.totp_verify
                  Demo.with_blank "alice" "pw1"
                  (String " " (String "009" (String "010" "")))
                  Demo.htpasswd Demo.boot
                  eq_refl ltac:(discriminate) eq_refl eq_refl
                  ltac:(discriminate) eq_refl eq_refl)).
Defined.

(** The manager of the next lemma is one [__init__] builds. *)
Example flaky_manager_constructed :
  (__init__ unit Demo.get_auth_service_class true [] "flaky" tt [] "pam" tt ""
     Demo.boot).1 = Ok Demo.with_flaky.
Proof. vm_compute. reflexivity. Qed.

(** C6, as stated, fails: the [cleanup] of the internal service raises, and
    the external service, though configured, is never asked to clean up. *)
Lemma cleanup_skips_external :
  ~ cleanup_attempts_both Demo.with_flaky Demo.boot.
Proof.
  unfold cleanup_attempts_both. intros [_ Hext].
  assert (Hsome : is_Some (__external_service Demo.with_flaky))
    by (eexists; reflexivity).
  specialize (Hext Hsome). vm_compute in Hext.
  destruct Hext as [Heq|[]]. discriminate.
Qed.

(** ** Runs of the demo installation *)

(** A password shorter than six characters is all code and no core. *)
Example short_password_slices :
  PyStr.slice_from "2039" (-6) = "2039" /\ PyStr.slice_to "2039" (-6) = "".
Proof. split; reflexivity. Qed.

Example strip_secret_file :
  PyStr.strip (String "010" "JBSWY3DPEHPK3PXP" +:+ String "010" "")
  = "JBSWY3DPEHPK3PXP".
Proof. reflexivity. Qed.

(** No secret, an internal service that accepts ("alice", "pw1"): a login
    for 60 seconds at second 100 is valid at second 159 and gone at 161. *)
Example scenario_login :
  (login Demo.token_hex Demo.read_file Demo.totp_verify Demo.simple
     "alice" "pw1" 60 Demo.boot).1 = Ok (Some "c0ffee").
Proof. vm_compute. reflexivity. Qed.

Example scenario_check_at_59 :
  (check Demo.simple "c0ffee"
     (set_monotonic 159
        (login Demo.token_hex Demo.read_file Demo.totp_verify Demo.simple
           "alice" "pw1" 60 Demo.boot).2)).1 = Ok (Some "alice").
Proof. vm_compute. reflexivity. Qed.

Example scenario_check_at_61 :
  (check Demo.simple "c0ffee"
     (set_monotonic 161
        (login Demo.token_hex Demo.read_file Demo.totp_verify Demo.simple
           "alice" "pw1" 60 Demo.boot).2)).1 = Ok None.
Proof. vm_compute. reflexivity. Qed.

(** A token source that repeats a key of the table ends the generator, and
    [login] with it, in the fatal error after ten draws. *)
Example stuck_source_is_fatal :
  (__make_new_token Demo.stuck_hex Demo.busy).1
  = Raise (AssertionError "Can't generate new unique token")
  /\ drawn (__make_new_token Demo.stuck_hex Demo.busy).2 = 10%nat.
Proof. split; vm_compute; reflexivity. Qed.

Example stuck_source_login :
  (login Demo.stuck_hex Demo.read_file Demo.totp_verify Demo.plain
     "alice" "unix" 60 Demo.busy).1
  = Raise (AssertionError "Can't generate new unique token").
Proof. vm_compute. reflexivity. Qed.

Example gate_on_unauth_path :
  (is_auth_required Demo.plain (HttpExposed.mk "/api/info" true) Demo.boot).1
  = Ok false
  /\ (is_auth_required Demo.plain (HttpExposed.mk "/api/hid" true)
        Demo.boot).1 = Ok true.
Proof. split; vm_compute; reflexivity. Qed.

(** ** More runs of the demo installation *)

(** A path given twice in [unauth_paths] is exempt all the same. *)
Lemma constructed_gate_follows_path_list_witness :
  __init__ unit Demo.get_auth_service_class true ["/api/info"; "/api/info"]
    "htpasswd" tt ["admin"] "pam" tt "" Demo.boot
  = (Ok (mkAuthManager true (list_to_set ["/api/info"; "/api/info"])
           (Some Demo.htpasswd) ["admin"] (Some Demo.pam) ""),
     (__init__ unit Demo.get_auth_service_class true
        ["/api/info"; "/api/info"] "htpasswd" tt ["admin"] "pam" tt ""
        Demo.boot).2)
  /\ is_auth_required
       (mkAuthManager true (list_to_set ["/api/info"; "/api/info"])
          (Some Demo.htpasswd) ["admin"] (Some Demo.pam) "")
       (HttpExposed.mk "/api/info" true) Demo.boot
     = (Ok false, Demo.boot).
Proof.
  assert (Hinit :
    __init__ unit Demo.get_auth_service_class true ["/api/info"; "/api/info"]
      "htpasswd" tt ["admin"] "pam" tt "" Demo.boot
    = (Ok (mkAuthManager true (list_to_set ["/api/info"; "/api/info"])
             (Some Demo.htpasswd) ["admin"] (Some Demo.pam) ""),
       (__init__ unit Demo.get_auth_service_class true
          ["/api/info"; "/api/info"] "htpasswd" tt ["admin"] "pam" tt ""
          Demo.boot).2)) by (vm_compute; reflexivity).
  split; [exact Hinit|].
  exact (constructed_gate_follows_path_list unit Demo.get_auth_service_class
           true ["/api/info"; "/api/info"] "htpasswd" tt ["admin"] "pam" tt ""
           Demo.boot _ _ (HttpExposed.mk "/api/info" true) Demo.boot Hinit).
Defined.

(** A secret file that cannot be read, and a service that cannot be
    reached, without a secret and behind an accepted code. *)
Lemma authorize_propagates_failures_witness :
  authorize Demo.read_file Demo.totp_verify
    (mkAuthManager true ∅ (Some Demo.htpasswd) [] None "/nowhere")
    "alice" "pw1" Demo.boot
  = (Raise (Failure "FileNotFoundError"), Demo.boot)
  /\ authorize Demo.read_file Demo.totp_verify
       (mkAuthManager true ∅ (Some Demo.flaky) [] None "")
       "alice" "pw1" Demo.boot
     = (Raise (Failure "unreachable"),
        add_events [Authorize Internal "alice" "pw1"] Demo.boot)
  /\ authorize Demo.read_file Demo.totp_verify
       (mkAuthManager true ∅ (Some Demo.flaky) [] None Demo.secret_path)
       "alice" "pw1492039" Demo.boot
     = (Raise (Failure "unreachable"),
        add_events [Authorize Internal "alice" "pw1"] Demo.boot).
Proof.
  split; [|split].
  - exact (proj1 (authorize_propagates_failures Demo.read_file
                    Demo.totp_verify
                    (mkAuthManager true ∅ (Some Demo.htpasswd) [] None
                       "/nowhere")
                    "alice" "pw1" Demo.htpasswd (Failure "FileNotFoundError")
                    Demo.boot eq_refl ltac:(discriminate) eq_refl eq_refl)
             ltac:(discriminate) eq_refl).
  - exact (proj2 (proj2 (authorize_propagates_failures Demo.read_file
                           Demo.totp_verify
                           (mkAuthManager true ∅ (Some Demo.flaky) [] None "")
                           "alice" "pw1" Demo.flaky (Failure "unreachable")
                           Demo.boot eq_refl ltac:(discriminate) eq_refl
                           eq_refl))
             "" eq_refl (or_introl eq_refl) eq_refl).
  - exact (proj2 (proj2 (authorize_propagates_failures Demo.read_file
                           Demo.totp_verify
                           (mkAuthManager true ∅ (Some Demo.flaky) [] None
                              Demo.secret_path)
                           "alice" "pw1492039" Demo.flaky
                           (Failure "unreachable")
                           Demo.boot eq_refl ltac:(discriminate) eq_refl
                           eq_refl))
             "JBSWY3DPEHPK3PXP"
             (ex_intro _ _ (conj eq_refl eq_refl))
             (or_intror eq_refl) eq_refl).
Defined.

(** The six characters of the code alone: the service sees an empty
    password. *)
Lemma short_password_is_all_code_witness :
  (String.length "492039" <= 6)%nat
  /\ verified_with Demo.with_totp "alice" "" Demo.htpasswd Demo.boot
       (authorize Demo.read_file Demo.totp_verify Demo.with_totp
          "alice" "492039" Demo.boot).
Proof.
  split; [simpl; lia|].
  exact (short_password_is_all_code Demo.read_file Demo.totp_verify
           Demo.with_totp "alice" "492039" "JBSWY3DPEHPK3PXP" Demo.htpasswd
           Demo.boot eq_refl ltac:(discriminate) eq_refl eq_refl demo_secret
           ltac:(discriminate) ltac:(simpl; lia)).
Defined.

Lemma login_rejects_bad_arguments_witness :
  -1 < 0
  /\ login Demo.token_hex Demo.read_file Demo.totp_verify Demo.simple
       "alice" "pw1" (-1) Demo.boot
     = (Raise (AssertionError ""), Demo.boot).
Proof.
  split; [lia|].
  apply login_rejects_bad_arguments. right; right; left. lia.
Defined.

Lemma demo_login :
  (login Demo.token_hex Demo.read_file Demo.totp_verify Demo.simple
     "alice" "pw1" 60 Demo.boot).1 = Ok (Some "c0ffee").
Proof. vm_compute. reflexivity. Defined.

(** Logged in at second 100 for 60 seconds: valid at second 159, evicted
    at second 160. *)
Lemma login_then_check_later_witness :
  (let w1 :=
     set_monotonic 159
       (login Demo.token_hex Demo.read_file Demo.totp_verify Demo.simple
          "alice" "pw1" 60 Demo.boot).2 in
   check Demo.simple "c0ffee" w1 = (Ok (Some "alice"), w1))
  /\ (let w1 :=
        set_monotonic 160
          (login Demo.token_hex Demo.read_file Demo.totp_verify Demo.simple
             "alice" "pw1" 60 Demo.boot).2 in
      check Demo.simple "c0ffee" w1
      = (Ok None, set_sessions (delete "c0ffee" (__sessions w1)) w1)
      /\ delete "c0ffee" (__sessions w1) = __sessions Demo.boot).
Proof.
  split.
  - exact (login_then_check_later Demo.token_hex Demo.read_file
             Demo.totp_verify Demo.simple "alice" "pw1" 60 "c0ffee" 159
             Demo.boot demo_login ltac:(simpl; lia)).
  - exact (login_then_check_later Demo.token_hex Demo.read_file
             Demo.totp_verify Demo.simple "alice" "pw1" 60 "c0ffee" 160
             Demo.boot demo_login ltac:(simpl; lia)).
Defined.

Lemma demo_second_login :
  (login Demo.token_hex Demo.read_file Demo.totp_verify Demo.simple
     "alice" "pw1" 0
     (set_monotonic 130
        (login Demo.token_hex Demo.read_file Demo.totp_verify Demo.simple
           "alice" "pw1" 60 Demo.boot).2)).1 = Ok (Some "decade").
Proof. vm_compute. reflexivity. Defined.

Lemma two_logins_coexist_witness :
  "c0ffee" <> "decade"
  /\ (exists s1,
        __sessions
          (login Demo.token_hex Demo.read_file Demo.totp_verify Demo.simple
             "alice" "pw1" 0
             (set_monotonic 130
                (login Demo.token_hex Demo.read_file Demo.totp_verify
                   Demo.simple "alice" "pw1" 60 Demo.boot).2)).2
        !! "c0ffee" = Some s1
        /\ _Session.user s1 = "alice")
  /\ (exists s2,
        __sessions
          (login Demo.token_hex Demo.read_file Demo.totp_verify Demo.simple
             "alice" "pw1" 0
             (set_monotonic 130
                (login Demo.token_hex Demo.read_file Demo.totp_verify
                   Demo.simple "alice" "pw1" 60 Demo.boot).2)).2
        !! "decade" = Some s2
        /\ _Session.user s2 = "alice").
Proof.
  exact (two_logins_coexist Demo.token_hex Demo.read_file Demo.totp_verify
           Demo.simple "alice" "pw1" 60 "alice" "pw1" 0 "c0ffee" "decade" 130
           Demo.boot demo_login demo_second_login).
Defined.

Lemma login_logout_round_trip_witness :
  exists w' : World,
    logout Demo.simple "c0ffee"
      (login Demo.token_hex Demo.read_file Demo.totp_verify Demo.simple
         "alice" "pw1" 60 Demo.boot).2 = (Ok tt, w')
    /\ __sessions w' = __sessions Demo.boot.
Proof.
  destruct (login_logout_round_trip Demo.token_hex Demo.read_file
              Demo.totp_verify Demo.simple "alice" "pw1" 60 "c0ffee"
              Demo.boot demo_login) as (w' & Hrun & _ & Hback).
  exists w'. split; [exact Hrun|]. apply Hback.
  intros t s Hts. simpl in Hts. rewrite lookup_empty in Hts. discriminate.
Defined.

Lemma check_sound_witness :
  (check Demo.plain "decade" Demo.busy).1 = Ok (Some "alice")
  /\ __sessions Demo.busy !! "decade" = Some (_Session.mk "alice" 160)
  /\ (check Demo.plain "decade" Demo.busy).2 = Demo.busy.
Proof.
  assert (H : (check Demo.plain "decade" Demo.busy).1 = Ok (Some "alice"))
    by reflexivity.
  split; [exact H|]. split; [reflexivity|].
  exact (proj2 (proj2 (proj2 (check_sound Demo.plain "decade" "alice"
                                Demo.busy H)))).
Defined.

Lemma logout_twice_witness :
  __enabled Demo.plain = true
  /\ logout Demo.plain "decade" (logout Demo.plain "decade" Demo.busy).2
     = (Ok tt, (logout Demo.plain "decade" Demo.busy).2).
Proof.
  split; [reflexivity|].
  exact (proj2 (logout_twice Demo.plain "decade" Demo.busy eq_refl)).
Defined.

Lemma demo_boot_keys : keys_drawn Demo.token_hex Demo.boot.
Proof.
  intros t [s Hts]. simpl in Hts. rewrite lookup_empty in Hts. discriminate.
Defined.

Lemma every_call_keeps_the_table_witness :
  valid_table (__sessions Demo.boot)
  /\ keys_drawn Demo.token_hex Demo.boot
  /\ valid_table
       (__sessions
          (perform Demo.token_hex Demo.read_file Demo.totp_verify Demo.simple
             (CallLogin "alice" "pw1" 60) Demo.boot))
  /\ keys_drawn Demo.token_hex
       (perform Demo.token_hex Demo.read_file Demo.totp_verify Demo.simple
          (CallLogin "alice" "pw1" 60) Demo.boot).
Proof.
  split; [apply map_Forall_empty|]. split; [exact demo_boot_keys|].
  exact (every_call_keeps_the_table Demo.token_hex Demo.read_file
           Demo.totp_verify Demo.simple (CallLogin "alice" "pw1" 60)
           Demo.boot (map_Forall_empty _) demo_boot_keys).
Defined.

Lemma reachable_states_are_sound_witness :
  __sessions Demo.boot = ∅
  /\ valid_table
       (__sessions
          (perform_all Demo.token_hex Demo.read_file Demo.totp_verify
             Demo.simple
             [CallLogin "alice" "pw1" 60; Clock 200; CallCheck "c0ffee";
              CallLogin "admin" "admin" 0; CallLogout "nobody"]
             Demo.boot))
  /\ exists r,
       (check Demo.simple "c0ffee"
          (perform_all Demo.token_hex Demo.read_file Demo.totp_verify
             Demo.simple
             [CallLogin "alice" "pw1" 60; Clock 200; CallCheck "c0ffee";
              CallLogin "admin" "admin" 0; CallLogout "nobody"]
             Demo.boot)).1 = Ok r.
Proof.
  split; [reflexivity|].
  destruct (reachable_states_are_sound Demo.token_hex Demo.read_file
              Demo.totp_verify Demo.simple
              [CallLogin "alice" "pw1" 60; Clock 200; CallCheck "c0ffee";
               CallLogin "admin" "admin" 0; CallLogout "nobody"]
              Demo.boot eq_refl) as (Hvalid & _ & Hcheck).
  split; [exact Hvalid|]. exact (Hcheck eq_refl "c0ffee").
Defined.

Lemma logout_keeps_other_checks_witness :
  __sessions Demo.busy !! "decade" = Some (_Session.mk "alice" 160)
  /\ __sessions Demo.busy !! "beef" = Some (_Session.mk "admin" 130)
  /\ (check Demo.plain "beef" (logout Demo.plain "decade" Demo.busy).2).1
     = (check Demo.plain "beef" Demo.busy).1.
Proof.
  split; [reflexivity|]. split; [reflexivity|].
  exact (logout_keeps_other_checks Demo.plain "decade" "beef"
           (_Session.mk "alice" 160) (_Session.mk "admin" 130) Demo.busy
           eq_refl eq_refl eq_refl ltac:(discriminate)).
Defined.

(** A manager constructed while the world still holds sessions starts from
    an empty table. *)
Example constructor_starts_empty :
  __sessions
    (__init__ unit Demo.get_auth_service_class true [] "htpasswd" tt [] "" tt
       "" Demo.busy).2 = ∅
  /\ (check Demo.simple "c0ffee"
        (__init__ unit Demo.get_auth_service_class true [] "htpasswd" tt []
           "" tt "" Demo.busy).2).1 = Ok None.
Proof. split; vm_compute; reflexivity. Qed.
